(** * Meeting intelligence: a shallow embedding of
      [modules/meeting_intelligence.py] (class [MeetingIntelligence]).

    The Python module is an orchestration layer: every method talks to
    one external collaborator (calendar provider, transcript provider,
    language-model backend) and to a SQLAlchemy session.  The embedding
    keeps that shape:

    - Python values that arrive from JSON are values of [pyval];
    - exceptions are values of [exn], computations live in a small
      state-and-exception monad [M] in which a raised exception keeps the
      state reached so far (Python does not roll anything back);
    - the session is a [Store]; the collaborators are the fields of an
      [Env], so that every response (or exception) they could produce is
      covered by quantifying over [Env];
    - every interaction with a collaborator is appended to a trace, which
      is how "makes no call to ..." is stated. *)

From Stdlib Require Import ZArith Ascii String.
From stdpp Require Import base numbers list strings sorting.

Local Open Scope string_scope.
Local Open Scope list_scope.
Local Open Scope Z_scope.

(** ** Python values and exceptions *)

(** The JSON fragment of Python's values.  Numbers are restricted to
    integers: no claim inspects a number. *)
#[warnings="-register-all"]
Inductive pyval : Type :=
| PyNone
| PyBool (b : bool)
| PyInt (n : Z)
| PyStr (s : string)
| PyList (l : list pyval)
| PyDict (kv : list (string * pyval)).

Inductive exn : Type :=
| KeyError (key : string)
| IndexError
| TypeError
| AttributeError
| ValueError
| ArgumentError
| ServiceError (msg : string).

Inductive result (A : Type) : Type :=
| Ok (a : A)
| Raise (e : exn).
Arguments Ok {A} a.
Arguments Raise {A} e.

#[global] Instance result_ret : MRet result := fun _ a => Ok a.
#[global] Instance result_bind : MBind result := fun _ _ k r =>
  match r with
  | Ok a => k a
  | Raise e => Raise e
  end.

(** [bool(v)]. *)
Definition truthy (v : pyval) : bool :=
  match v with
  | PyNone => false
  | PyBool b => b
  | PyInt n => negb (Z.eqb n 0)
  | PyStr s => negb (String.eqb s "")
  | PyList l => match l with [] => false | _ => true end
  | PyDict kv => match kv with [] => false | _ => true end
  end.

(** [a or b]. *)
Definition py_or (a b : pyval) : pyval := if truthy a then a else b.

Fixpoint dict_lookup (k : string) (kv : list (string * pyval)) : option pyval :=
  match kv with
  | [] => None
  | (k', v) :: kv' => if String.eqb k k' then Some v else dict_lookup k kv'
  end.

(** [v[k]] for a string key [k]. *)
Definition getitem (v : pyval) (k : string) : result pyval :=
  match v with
  | PyDict kv =>
      match dict_lookup k kv with
      | Some x => Ok x
      | None => Raise (KeyError k)
      end
  | _ => Raise TypeError
  end.

(** [v.get(k, default)]: only a dict has a [get] attribute. *)
Definition get (v : pyval) (k : string) (default : pyval) : result pyval :=
  match v with
  | PyDict kv =>
      match dict_lookup k kv with
      | Some x => Ok x
      | None => Ok default
      end
  | _ => Raise AttributeError
  end.

(** [for x in v]: the sequence of values a [for] loop or a comprehension
    walks through.  A string yields its characters, a dict its keys. *)
Fixpoint chars (s : string) : list pyval :=
  match s with
  | EmptyString => []
  | String c s' => PyStr (String c EmptyString) :: chars s'
  end.

Definition iter (v : pyval) : result (list pyval) :=
  match v with
  | PyList l => Ok l
  | PyStr s => Ok (chars s)
  | PyDict kv => Ok (map (fun p => PyStr (fst p)) kv)
  | _ => Raise TypeError
  end.

(** [v[0]].  JSON dict keys are strings, so the integer key [0] is never
    present in a dict. *)
Definition getitem0 (v : pyval) : result pyval :=
  match v with
  | PyList (x :: _) => Ok x
  | PyList [] => Raise IndexError
  | PyStr (String c _) => Ok (PyStr (String c EmptyString))
  | PyStr EmptyString => Raise IndexError
  | PyDict _ => Raise (KeyError "0")
  | _ => Raise TypeError
  end.

(** [s.replace('Z', '+00:00')] on a [str]. *)
Fixpoint replace_Z (s : string) : string :=
  match s with
  | EmptyString => EmptyString
  | String c s' =>
      if Ascii.eqb c "Z"%char then "+00:00" +:+ replace_Z s'
      else String c (replace_Z s')
  end.

(** [v.replace('Z', '+00:00')]: only a [str] has that method here. *)
Definition replace (v : pyval) : result string :=
  match v with
  | PyStr s => Ok (replace_Z s)
  | _ => Raise AttributeError
  end.

(** [isinstance(v, str)]. *)
Definition is_str (v : pyval) : bool :=
  match v with
  | PyStr _ => true
  | _ => false
  end.

(** ** Records of [core.models] *)

(** Timestamps are microseconds since the epoch. *)
Definition datetime : Type := Z.

(** [timedelta(days=n)]. *)
Definition timedelta_days (n : Z) : Z := n * 86400 * 1000000.

(** Modelled from the spec: the [Meeting] and [Email] classes of
    [core.models] are not part of the sources; their attributes are the
    ones of the spec's data model.  An attribute assigned from Python
    code holds whatever value the code puts there, so the attributes the
    module writes are of type [pyval], with [PyNone] for an absent
    optional value.  [summary] is listed because
    [generate_followup_email] reads [meeting.summary]. *)
Module Meeting.
Record t : Type := mk {
  id : option Z;
  account_id : Z;
  calendar_id : string;
  event_id : pyval;
  title : pyval;
  description : pyval;
  start_time : datetime;
  end_time : datetime;
  attendees : pyval;
  location : pyval;
  meeting_link : pyval;
  transcript : pyval;
  prep_summary : pyval;
  action_items : pyval;
  fathom_id : pyval;
  summary : pyval
}.

Definition set_id (x : option Z) (m : t) : t :=
  mk x (account_id m) (calendar_id m) (event_id m) (title m)
     (description m) (start_time m) (end_time m) (attendees m)
     (location m) (meeting_link m) (transcript m) (prep_summary m)
     (action_items m) (fathom_id m) (summary m).

Definition set_transcript (x : pyval) (m : t) : t :=
  mk (id m) (account_id m) (calendar_id m) (event_id m) (title m)
     (description m) (start_time m) (end_time m) (attendees m)
     (location m) (meeting_link m) x (prep_summary m)
     (action_items m) (fathom_id m) (summary m).

Definition set_prep_summary (x : pyval) (m : t) : t :=
  mk (id m) (account_id m) (calendar_id m) (event_id m) (title m)
     (description m) (start_time m) (end_time m) (attendees m)
     (location m) (meeting_link m) (transcript m) x
     (action_items m) (fathom_id m) (summary m).

Definition set_action_items (x : pyval) (m : t) : t :=
  mk (id m) (account_id m) (calendar_id m) (event_id m) (title m)
     (description m) (start_time m) (end_time m) (attendees m)
     (location m) (meeting_link m) (transcript m) (prep_summary m)
     x (fathom_id m) (summary m).

Definition set_fathom_id (x : pyval) (m : t) : t :=
  mk (id m) (account_id m) (calendar_id m) (event_id m) (title m)
     (description m) (start_time m) (end_time m) (attendees m)
     (location m) (meeting_link m) (transcript m) (prep_summary m)
     (action_items m) x (summary m).
End Meeting.

Module Email.
Record t : Type := mk {
  sender : string;
  subject : string;
  body : string;
  received_at : datetime
}.
End Email.

(** One entry of [email_data] in [generate_meeting_prep]. *)
Record EmailData : Type := {
  ed_sender : string;
  ed_subject : string;
  ed_body : string;
  ed_date : string
}.

(** ** The session *)

(** [meetings] are the persistent rows as the session sees them (an
    attribute assignment on a loaded row changes this list); [pending]
    are the rows handed to [db.add] and not committed yet, which have no
    primary key; [durable] is what the last commit wrote. *)
Record Store : Type := {
  meetings : list Meeting.t;
  pending : list Meeting.t;
  emails : list Email.t;
  durable : list Meeting.t;
  next_id : Z
}.

(** Primary keys handed out at commit. *)
Fixpoint stamp (n : Z) (rows : list Meeting.t) : list Meeting.t :=
  match rows with
  | [] => []
  | m :: rows' => Meeting.set_id (Some n) m :: stamp (n + 1) rows'
  end.

Definition store_add (m : Meeting.t) (st : Store) : Store :=
  {| meetings := meetings st; pending := pending st ++ [m];
     emails := emails st; durable := durable st; next_id := next_id st |}.

Definition store_commit (st : Store) : Store :=
  let rows := meetings st ++ stamp (next_id st) (pending st) in
  {| meetings := rows; pending := []; emails := emails st;
     durable := rows; next_id := next_id st + Z.of_nat (length (pending st)) |}.

(** [db.query(Meeting).filter(Meeting.id == meeting_id).first()]: the
    position and the value of the first matching row. *)
Definition find_meeting (meeting_id : Z) (st : Store) : option (nat * Meeting.t) :=
  list_find (fun m => Meeting.id m = Some meeting_id) (meetings st).

(** An attribute assignment on the row loaded from position [i]. *)
Definition store_write (i : nat) (m : Meeting.t) (st : Store) : Store :=
  {| meetings := <[i := m]> (meetings st); pending := pending st;
     emails := emails st; durable := durable st; next_id := next_id st |}.

(** [Email.sender.in_(attendees)]: the operand has to be a sequence that
    is not a string; a sender matches when the list holds it as a
    string. *)
Definition in_operand (v : pyval) : result (list pyval) :=
  match v with
  | PyList l => Ok l
  | _ => Raise ArgumentError
  end.

Definition sender_in (attendees : list pyval) (e : Email.t) : bool :=
  existsb (fun v => match v with
                    | PyStr s => String.eqb s (Email.sender e)
                    | _ => false
                    end) attendees.

(** [order_by(Email.received_at.desc())]. *)
Definition newer_first (a b : Email.t) : Prop :=
  Email.received_at b <= Email.received_at a.

#[global] Instance newer_first_dec a b : Decision (newer_first a b).
Proof. unfold newer_first. apply _. Defined.

(** [db.query(Email).filter(Email.sender.in_(attendees))
      .order_by(Email.received_at.desc()).limit(10).all()]. *)
Definition query_emails (attendees : list pyval) (st : Store) : list Email.t :=
  take 10 (merge_sort newer_first (filter (fun e => sender_in attendees e = true) (emails st))).

(** ** External collaborators and the trace *)

(** What an [httpx] response offers to this module. *)
Record Response : Type := {
  status_code : Z;
  json : result pyval;
  text : string
}.

(** The [json=] argument of the chat-completions call; the temperature
    is a decimal fraction. *)
Record ChatRequest : Type := {
  model : string;
  messages : list (string * string);
  temperature : Z * Z;
  max_tokens : Z
}.

Inductive effect : Type :=
| CalendarList (calendar_id time_min time_max : string)
| DbQueryMeeting (meeting_id : Z)
| DbQueryEmail (senders : list pyval)
| DbAdd (m : Meeting.t)
| DbCommit
| LlmSummarize (email_data : list EmailData)
| LlmExtract (transcript : pyval)
| HttpGet (url : string)
| HttpPost (url : string) (req : ChatRequest)
| LogError (msg : string) (e : exn)
| LogErrorText (msg detail : string)
| LogWarning (msg : string).

Record World : Type := {
  store : Store;
  trace : list effect
}.

(** Everything the module does not compute itself: configuration
    ([config.settings]), the clock, the library functions on values that
    are not modelled structurally ([str], [eval], [datetime.isoformat],
    [datetime.fromisoformat]) and the answers of the three services.  A
    service answers with a value or raises. *)
Record Env : Type := {
  fathom_api_key : option string;
  fathom_api_url : string;
  openrouter_base_url : string;
  openrouter_api_key : string;
  llm_model : string;
  utcnow : datetime;
  isoformat : datetime -> string;
  fromisoformat : string -> option datetime;
  py_str : pyval -> string;
  py_eval : string -> result pyval;
  calendar_events : string -> string -> string -> result pyval;
  summarize_thread : list EmailData -> result pyval;
  extract_action_items : pyval -> result pyval;
  http_get : string -> list (string * string) -> Z -> result Response;
  http_post : string -> list (string * string) -> ChatRequest -> Z -> result Response
}.

(** ** The monad *)

(** A computation over a state [S] that returns or raises.  The state at
    the point of the exception is kept: nothing is undone. *)
Definition M (S A : Type) : Type := S -> result A * S.

#[global] Instance M_ret {S} : MRet (M S) := fun _ a s => (Ok a, s).
#[global] Instance M_bind {S} : MBind (M S) := fun _ _ k m s =>
  match m s with
  | (Ok a, s') => k a s'
  | (Raise e, s') => (Raise e, s')
  end.

(** A pure step that may raise. *)
Definition lift {S A} (r : result A) : M S A := fun s => (r, s).

(** [try: body except Exception as e: handler e]. *)
Definition try_except {S A} (body : M S A) (handler : exn -> M S A) : M S A :=
  fun s =>
    match body s with
    | (Ok a, s') => (Ok a, s')
    | (Raise e, s') => handler e s'
    end.

(** A method's local variable that is mutated inside a [try] and read
    after it lives next to the world. *)
Definition in_world {L A} (m : M World A) : M (L * World) A :=
  fun lw => let (r, w') := m (snd lw) in (r, (fst lw, w')).

Definition local_update {L} (f : L -> L) : M (L * World) unit :=
  fun lw => (Ok tt, (f (fst lw), snd lw)).

(** Run [m] with the local initialised to [l0] and return the local. *)
Definition returning_local {L} (l0 : L) (m : M (L * World) unit) : M World L :=
  fun w =>
    match m (l0, w) with
    | (Ok _, (l, w')) => (Ok l, w')
    | (Raise e, (_, w')) => (Raise e, w')
    end.

Definition emit (e : effect) : M World unit :=
  fun w => (Ok tt, {| store := store w; trace := trace w ++ [e] |}).

Definition update_store (f : Store -> Store) : M World unit :=
  fun w => (Ok tt, {| store := f (store w); trace := trace w |}).

Definition read_store {A} (f : Store -> A) : M World A :=
  fun w => (Ok (f (store w)), w).

(** Session operations. *)
Definition db_query_meeting (meeting_id : Z) : M World (option (nat * Meeting.t)) :=
  emit (DbQueryMeeting meeting_id);; read_store (find_meeting meeting_id).

Definition db_query_emails (attendees : list pyval) : M World (list Email.t) :=
  emit (DbQueryEmail attendees);; read_store (query_emails attendees).

Definition db_add (m : Meeting.t) : M World unit :=
  emit (DbAdd m);; update_store (store_add m).

Definition db_commit : M World unit :=
  emit DbCommit;; update_store store_commit.

Definition db_write (i : nat) (m : Meeting.t) : M World unit :=
  update_store (store_write i m).

(** ** class [MeetingIntelligence] *)

Record SyncResults : Type := {
  synced : Z;
  errors : Z
}.

Definition nl : string := String (ascii_of_nat 10) EmptyString.

Definition fallback_email : pyval := PyStr "Unable to generate follow-up email".

Section MeetingIntelligence.
Variable env : Env.

(** [datetime.fromisoformat(event[key].get('dateTime',
      event[key].get('date')).replace('Z', '+00:00'))].  The default
    of the outer [get] is evaluated before the call. *)
Definition event_time (event : pyval) (key : string) : result datetime :=
  bounds ← getitem event key;
  date ← get bounds "date" PyNone;
  value ← get bounds "dateTime" date;
  iso ← replace value;
  match fromisoformat env iso with
  | Some t => Ok t
  | None => Raise ValueError
  end.

(** The [Meeting(...)] expression of the loop body; the keyword
    arguments are evaluated in the order they are written. *)
Definition build_meeting (account_id : Z) (event : pyval) : result Meeting.t :=
  event_id ← getitem event "id";
  title ← getitem event "summary";
  description ← get event "description" PyNone;
  start_time ← event_time event "start";
  end_time ← event_time event "end";
  invited ← get event "attendees" (PyList []);
  invited ← iter invited;
  addresses ← mapM (fun a => getitem a "email") invited;
  location ← get event "location" PyNone;
  conference ← get event "conferenceData" (PyDict []);
  entry_points ← get conference "entryPoints" (PyList [PyDict []]);
  entry_point ← getitem0 entry_points;
  meeting_link ← get entry_point "uri" PyNone;
  Ok {| Meeting.id := None;
        Meeting.account_id := account_id;
        Meeting.calendar_id := "primary";
        Meeting.event_id := event_id;
        Meeting.title := title;
        Meeting.description := description;
        Meeting.start_time := start_time;
        Meeting.end_time := end_time;
        Meeting.attendees := PyStr (py_str env (PyList addresses));
        Meeting.location := location;
        Meeting.meeting_link := meeting_link;
        Meeting.transcript := PyNone;
        Meeting.prep_summary := PyNone;
        Meeting.action_items := PyNone;
        Meeting.fathom_id := PyNone;
        Meeting.summary := PyNone |}.

Definition count_synced (r : SyncResults) : SyncResults :=
  {| synced := synced r + 1; errors := errors r |}.

Definition count_error (r : SyncResults) : SyncResults :=
  {| synced := synced r; errors := errors r + 1 |}.

(** The [for event in ...] loop. *)
Fixpoint sync_loop (account_id : Z) (events : list pyval)
  : M (SyncResults * World) unit :=
  match events with
  | [] => mret tt
  | event :: rest =>
      meeting ← lift (build_meeting account_id event);
      in_world (db_add meeting);;
      local_update count_synced;;
      sync_loop account_id rest
  end.

(** [now.isoformat() + 'Z'] and
    [(now + timedelta(days=30)).isoformat() + 'Z']. *)
Definition time_min : string := isoformat env (utcnow env) +:+ "Z".
Definition time_max : string :=
  isoformat env (utcnow env + timedelta_days 30) +:+ "Z".

Definition sync_body (account_id : Z) : M (SyncResults * World) unit :=
  in_world (emit (CalendarList "primary" time_min time_max));;
  events ← lift (calendar_events env "primary" time_min time_max);
  items ← lift (get events "items" (PyList []));
  items ← lift (iter items);
  sync_loop account_id items;;
  in_world db_commit.

Definition sync_calendar_events (account_id : Z) : M World SyncResults :=
  returning_local {| synced := 0; errors := 0 |}
    (try_except (sync_body account_id)
       (fun e =>
          in_world (emit (LogError "Error syncing calendar: " e));;
          local_update count_error)).

(** [e.body[:500]] and the other three entries of the dict. *)
Definition email_entry (e : Email.t) : EmailData :=
  {| ed_sender := Email.sender e;
     ed_subject := Email.subject e;
     ed_body := String.substring 0 500 (Email.body e);
     ed_date := isoformat env (Email.received_at e) |}.

Definition generate_meeting_prep (meeting_id : Z) : M World pyval :=
  found ← db_query_meeting meeting_id;
  match found with
  | None => mret (PyStr "")
  | Some (i, meeting) =>
      try_except
        (attendees ← lift (match Meeting.attendees meeting with
                           | PyStr src => py_eval env src
                           | _ => Ok (PyList [])
                           end);
         senders ← lift (in_operand attendees);
         emails ← db_query_emails senders;
         let email_data := map email_entry emails in
         emit (LlmSummarize email_data);;
         summary ← lift (summarize_thread env email_data);
         db_write i (Meeting.set_prep_summary summary meeting);;
         db_commit;;
         mret summary)
        (fun e =>
           emit (LogError "Error generating meeting prep: " e);;
           mret (PyStr ""))
  end.

(** The request of [import_fathom_transcript]. *)
Definition transcript_url (fathom_recording_id : string) : string :=
  fathom_api_url env +:+ "/v1/recordings/" +:+ fathom_recording_id +:+ "/transcript".

Definition bearer (key : string) : list (string * string) :=
  [("Authorization", "Bearer " +:+ key)].

Definition import_fathom_transcript (meeting_id : Z) (fathom_recording_id : string)
  : M World pyval :=
  match fathom_api_key env with
  | None | Some EmptyString =>
      emit (LogWarning "Fathom API key not configured");;
      mret PyNone
  | Some key =>
      try_except
        (let url := transcript_url fathom_recording_id in
         emit (HttpGet url);;
         response ← lift (http_get env url (bearer key) 30);
         if Z.eqb (status_code response) 200 then
           data ← lift (json response);
           transcript ← lift (get data "transcript" (PyStr ""));
           found ← db_query_meeting meeting_id;
           match found with
           | Some (i, meeting) =>
               let meeting := Meeting.set_transcript transcript meeting in
               db_write i meeting;;
               let meeting := Meeting.set_fathom_id (PyStr fathom_recording_id) meeting in
               db_write i meeting;;
               db_commit
           | None => mret tt
           end;;
           mret transcript
         else
           emit (LogErrorText "Fathom API error: " (text response));;
           mret PyNone)
        (fun e =>
           emit (LogError "Error importing Fathom transcript: " e);;
           mret PyNone)
  end.

Definition extract_action_items_from_meeting (meeting_id : Z) : M World pyval :=
  found ← db_query_meeting meeting_id;
  match found with
  | None => mret (PyList [])
  | Some (i, meeting) =>
      if negb (truthy (Meeting.transcript meeting)) then mret (PyList [])
      else
        emit (LlmExtract (Meeting.transcript meeting));;
        action_items ← lift (extract_action_items env (Meeting.transcript meeting));
        db_write i (Meeting.set_action_items (PyStr (py_str env action_items)) meeting);;
        db_commit;;
        mret action_items
  end.

Definition followup_prompt (meeting : Meeting.t) : string :=
  "Generate a professional follow-up email after this meeting:" +:+ nl +:+ nl
  +:+ "Title: " +:+ py_str env (Meeting.title meeting) +:+ nl
  +:+ "Attendees: " +:+ py_str env (Meeting.attendees meeting) +:+ nl
  +:+ "Summary: "
  +:+ py_str env (py_or (Meeting.summary meeting) (PyStr "No summary available")) +:+ nl
  +:+ "Action Items: "
  +:+ py_str env (py_or (Meeting.action_items meeting) (PyStr "None")) +:+ nl +:+ nl
  +:+ "Write a concise follow-up email.".

(** The request of [generate_followup_email]. *)
Definition chat_url : string := openrouter_base_url env +:+ "/chat/completions".

Definition chat_headers : list (string * string) :=
  bearer (openrouter_api_key env) ++ [("Content-Type", "application/json")].

Definition chat_request (prompt : string) : ChatRequest :=
  {| model := llm_model env;
     messages := [("user", prompt)];
     temperature := (7, 10);
     max_tokens := 400 |}.

Definition generate_followup_email (meeting_id : Z) : M World pyval :=
  found ← db_query_meeting meeting_id;
  match found with
  | None => mret (PyStr "")
  | Some (_, meeting) =>
      let prompt := followup_prompt meeting in
      try_except
        (let req := chat_request prompt in
         emit (HttpPost chat_url req);;
         response ← lift (http_post env chat_url chat_headers req 30);
         if Z.eqb (status_code response) 200 then
           result ← lift (json response);
           choices ← lift (getitem result "choices");
           choice ← lift (getitem0 choices);
           message ← lift (getitem choice "message");
           lift (getitem message "content")
         else mret fallback_email)
        (fun e =>
           emit (LogError "Error generating follow-up: " e);;
           mret fallback_email)
  end.

End MeetingIntelligence.

(** ** Vocabulary of the statements *)

(** The world after a lookup that is the only thing a method did. *)
Definition only_looked_up (meeting_id : Z) (w : World) : World :=
  {| store := store w; trace := trace w ++ [DbQueryMeeting meeting_id] |}.

(** What the calendar provider answers to the request of a sync. *)
Definition calendar_answer (env : Env) : result pyval :=
  calendar_events env "primary" (time_min env) (time_max env).

(** What the transcript provider answers to the request of an import. *)
Definition provider_answer (env : Env) (fathom_recording_id key : string)
  : result Response :=
  http_get env (transcript_url env fathom_recording_id) (bearer key) 30.

(** What the backend answers to the follow-up request for [meeting]. *)
Definition backend_answer (env : Env) (meeting : Meeting.t) : result Response :=
  http_post env (chat_url env) (chat_headers env)
    (chat_request env (followup_prompt env meeting)) 30.

(** The session after [db.add] was called on each of [rows], in order. *)
Definition add_rows (rows : list Meeting.t) (st : Store) : Store :=
  {| meetings := meetings st; pending := pending st ++ rows;
     emails := emails st; durable := durable st; next_id := next_id st |}.

(** [events] are valid for the loop body and produce [rows]. *)
Definition valid_events (env : Env) (account_id : Z)
    (events : list pyval) (rows : list Meeting.t) : Prop :=
  Forall2 (fun event m => build_meeting env account_id event = Ok m) events rows.

(** The spec's words for the e-mails of a prep brief: [selected] are at
    most ten of the e-mails in [inbox] whose sender is one of
    [attendees], newest first, and no matching e-mail that was left out
    is newer than a selected one; e-mails are left out only when ten were
    selected. *)
Definition newest_matching (attendees : list pyval) (inbox selected : list Email.t)
  : Prop :=
  (length selected <= 10)%nat
  /\ StronglySorted newer_first selected
  /\ exists older,
      selected ++ older ≡ₚ filter (fun e => sender_in attendees e = true) inbox
      /\ (forall s o, s ∈ selected -> o ∈ older ->
                      Email.received_at o <= Email.received_at s)
      /\ (older <> [] -> length selected = 10%nat).

(** The spec's words for an entry sent to the summarization call: the
    e-mail with its body cut to the first 500 characters. *)
Definition truncated (env : Env) (e : Email.t) (d : EmailData) : Prop :=
  ed_sender d = Email.sender e
  /\ ed_subject d = Email.subject e
  /\ ed_date d = isoformat env (Email.received_at e)
  /\ String.prefix (ed_body d) (Email.body e) = true
  /\ String.length (ed_body d) = Nat.min 500 (String.length (Email.body e)).

(** ** Sample data *)

Module Sample.

(** [str] on the values that occur below. *)
Definition show (v : pyval) : string :=
  match v with
  | PyStr s => s
  | PyNone => "None"
  | PyList [] => "[]"
  | PyList [PyStr a] => "['" +:+ a +:+ "']"
  | PyList [PyStr a; PyStr b] => "['" +:+ a +:+ "', '" +:+ b +:+ "']"
  | _ => "?"
  end.

(** [eval] on the attendee strings that occur below. *)
Definition parse (src : string) : result pyval :=
  if String.eqb src "['ann@example.org']" then Ok (PyList [PyStr "ann@example.org"])
  else if String.eqb src "[]" then Ok (PyList [])
  else Raise ValueError.

(** Timestamps written as decimal day numbers. *)
Definition day_of (iso : string) : option datetime :=
  if String.eqb iso "2024-05-01T09:00:00+00:00" then Some 1
  else if String.eqb iso "2024-05-01T10:00:00+00:00" then Some 2
  else if String.eqb iso "2024-05-02" then Some 3
  else None.

Definition event_ok : pyval :=
  PyDict [("id", PyStr "ev1"); ("summary", PyStr "Kickoff");
          ("start", PyDict [("dateTime", PyStr "2024-05-01T09:00:00Z")]);
          ("end", PyDict [("dateTime", PyStr "2024-05-01T10:00:00Z")]);
          ("attendees", PyList [PyDict [("email", PyStr "ann@example.org")]])].

Definition event_all_day : pyval :=
  PyDict [("id", PyStr "ev2"); ("summary", PyStr "Offsite");
          ("start", PyDict [("date", PyStr "2024-05-02")]);
          ("end", PyDict [("date", PyStr "2024-05-02")]);
          ("location", PyStr "Lisbon")].

(** No ["summary"] key. *)
Definition event_untitled : pyval :=
  PyDict [("id", PyStr "ev3");
          ("start", PyDict [("date", PyStr "2024-05-02")]);
          ("end", PyDict [("date", PyStr "2024-05-02")])].

Definition chat_body (content : string) : pyval :=
  PyDict [("choices",
           PyList [PyDict [("message", PyDict [("role", PyStr "assistant");
                                               ("content", PyStr content)])]])].

(** An environment in which every service answers. *)
Definition env_up : Env :=
  {| fathom_api_key := Some "k";
     fathom_api_url := "https://fathom.test";
     openrouter_base_url := "https://llm.test";
     openrouter_api_key := "o";
     llm_model := "m";
     utcnow := 0;
     isoformat := fun _ => "2024-05-01T00:00:00";
     fromisoformat := day_of;
     py_str := show;
     py_eval := parse;
     calendar_events := fun _ _ _ => Ok (PyDict [("items", PyList [event_ok; event_all_day])]);
     summarize_thread := fun _ => Ok (PyStr "brief");
     extract_action_items := fun _ => Ok (PyList [PyStr "send notes"]);
     http_get := fun _ _ _ =>
       Ok {| status_code := 200;
             json := Ok (PyDict [("transcript", PyStr "hello")]);
             text := "" |};
     http_post := fun _ _ _ _ =>
       Ok {| status_code := 200; json := Ok (chat_body "Dear all"); text := "" |} |}.

(** The same, with one field of the calendar answer replaced. *)
Definition with_calendar (r : result pyval) (e : Env) : Env :=
  {| fathom_api_key := fathom_api_key e; fathom_api_url := fathom_api_url e;
     openrouter_base_url := openrouter_base_url e;
     openrouter_api_key := openrouter_api_key e; llm_model := llm_model e;
     utcnow := utcnow e; isoformat := isoformat e;
     fromisoformat := fromisoformat e; py_str := py_str e; py_eval := py_eval e;
     calendar_events := fun _ _ _ => r;
     summarize_thread := summarize_thread e;
     extract_action_items := extract_action_items e;
     http_get := http_get e; http_post := http_post e |}.

Definition with_http_get (r : result Response) (e : Env) : Env :=
  {| fathom_api_key := fathom_api_key e; fathom_api_url := fathom_api_url e;
     openrouter_base_url := openrouter_base_url e;
     openrouter_api_key := openrouter_api_key e; llm_model := llm_model e;
     utcnow := utcnow e; isoformat := isoformat e;
     fromisoformat := fromisoformat e; py_str := py_str e; py_eval := py_eval e;
     calendar_events := calendar_events e;
     summarize_thread := summarize_thread e;
     extract_action_items := extract_action_items e;
     http_get := fun _ _ _ => r; http_post := http_post e |}.

Definition with_http_post (r : result Response) (e : Env) : Env :=
  {| fathom_api_key := fathom_api_key e; fathom_api_url := fathom_api_url e;
     openrouter_base_url := openrouter_base_url e;
     openrouter_api_key := openrouter_api_key e; llm_model := llm_model e;
     utcnow := utcnow e; isoformat := isoformat e;
     fromisoformat := fromisoformat e; py_str := py_str e; py_eval := py_eval e;
     calendar_events := calendar_events e;
     summarize_thread := summarize_thread e;
     extract_action_items := extract_action_items e;
     http_get := http_get e; http_post := fun _ _ _ _ => r |}.

Definition with_extract (r : result pyval) (e : Env) : Env :=
  {| fathom_api_key := fathom_api_key e; fathom_api_url := fathom_api_url e;
     openrouter_base_url := openrouter_base_url e;
     openrouter_api_key := openrouter_api_key e; llm_model := llm_model e;
     utcnow := utcnow e; isoformat := isoformat e;
     fromisoformat := fromisoformat e; py_str := py_str e; py_eval := py_eval e;
     calendar_events := calendar_events e;
     summarize_thread := summarize_thread e;
     extract_action_items := fun _ => r;
     http_get := http_get e; http_post := http_post e |}.

(** A meeting that was held (it has a transcript) and one that was not. *)
Definition held : Meeting.t :=
  {| Meeting.id := Some 1; Meeting.account_id := 7;
     Meeting.calendar_id := "primary"; Meeting.event_id := PyStr "ev0";
     Meeting.title := PyStr "Review"; Meeting.description := PyNone;
     Meeting.start_time := 1; Meeting.end_time := 2;
     Meeting.attendees := PyStr "['ann@example.org']";
     Meeting.location := PyNone; Meeting.meeting_link := PyNone;
     Meeting.transcript := PyStr "Ann: I will send the notes.";
     Meeting.prep_summary := PyNone; Meeting.action_items := PyNone;
     Meeting.fathom_id := PyNone; Meeting.summary := PyNone |}.

Definition upcoming : Meeting.t :=
  Meeting.set_transcript PyNone (Meeting.set_id (Some 2) held).

Definition mail (who : string) (when : datetime) : Email.t :=
  {| Email.sender := who; Email.subject := "re"; Email.body := "text";
     Email.received_at := when |}.

Definition db : Store :=
  {| meetings := [held; upcoming];
     pending := [];
     emails := [mail "ann@example.org" 5; mail "bob@example.org" 9;
                mail "ann@example.org" 8];
     durable := [held; upcoming];
     next_id := 3 |}.

Definition world : World := {| store := db; trace := [] |}.

(** The rows the loop builds from [event_ok] and [event_all_day]. *)
Definition row_of (event : pyval) : list Meeting.t :=
  match build_meeting env_up 7 event with
  | Ok m => [m]
  | Raise _ => []
  end.

Definition calendar_with_untitled : Env :=
  with_calendar
    (Ok (PyDict [("items", PyList [event_ok; event_untitled; event_all_day])]))
    env_up.

Definition provider_down : Env :=
  with_http_get (Ok {| status_code := 503; json := Raise ValueError;
                       text := "unavailable" |}) env_up.

End Sample.

(** ** Vocabulary of the further properties *)

(** The number of [db.add] calls in a trace. *)
Definition is_add (ev : effect) : bool :=
  match ev with
  | DbAdd _ => true
  | _ => false
  end.

Definition count_adds (t : list effect) : nat := length (List.filter is_add t).

(** The start of the trace of every sync. *)
Definition calendar_request (env : Env) : effect :=
  CalendarList "primary" (time_min env) (time_max env).

(** The error line of a sync. *)
Definition sync_error (e : exn) : effect := LogError "Error syncing calendar: " e.

(** The text [event_time] hands to [fromisoformat], before the ['Z'] is
    replaced: the string under ["dateTime"] when that key is present,
    the string under ["date"] when it is absent. *)
Definition time_text (bounds : list (string * pyval)) : option string :=
  match dict_lookup "dateTime" bounds with
  | Some (PyStr s) => Some s
  | Some _ => None
  | None =>
      match dict_lookup "date" bounds with
      | Some (PyStr s) => Some s
      | _ => None
      end
  end.

(** The row of a meeting after a successful import of [transcript]. *)
Definition imported (fathom_recording_id : string) (transcript : pyval)
    (meeting : Meeting.t) : Meeting.t :=
  Meeting.set_fathom_id (PyStr fathom_recording_id)
    (Meeting.set_transcript transcript meeting).

(** The characters of a string. *)
Fixpoint letters (s : string) : list ascii :=
  match s with
  | EmptyString => []
  | String c s' => c :: letters s'
  end.

(** ** Further sample data *)

Module Cases.

Definition calendar_down : Env :=
  Sample.with_calendar (Raise (ServiceError "503")) Sample.env_up.

Definition calendar_empty : Env :=
  Sample.with_calendar (Ok (PyDict [("kind", PyStr "calendar#events")])) Sample.env_up.

Definition calendar_null : Env :=
  Sample.with_calendar (Ok PyNone) Sample.env_up.

(** The world after the sync that stopped at [Sample.event_untitled]. *)
Definition after_abort : World :=
  snd (sync_calendar_events Sample.calendar_with_untitled 7 Sample.world).

(** An event with a video call: two entry points. *)
Definition event_call : pyval :=
  PyDict [("id", PyStr "ev4"); ("summary", PyStr "Standup");
          ("start", PyDict [("dateTime", PyStr "2024-05-01T09:00:00Z");
                            ("date", PyStr "2024-05-02")]);
          ("end", PyDict [("dateTime", PyStr "2024-05-01T10:00:00Z")]);
          ("conferenceData",
           PyDict [("entryPoints",
                    PyList [PyDict [("uri", PyStr "https://meet.test/abc")];
                            PyDict [("uri", PyStr "tel:+1-555-0100")]])])].

(** The row built from a valid sample event. *)
Definition built (event : pyval) : Meeting.t :=
  match build_meeting Sample.env_up 7 event with
  | Ok m => m
  | Raise _ => Sample.held
  end.

Definition with_summarize (r : result pyval) (e : Env) : Env :=
  {| fathom_api_key := fathom_api_key e; fathom_api_url := fathom_api_url e;
     openrouter_base_url := openrouter_base_url e;
     openrouter_api_key := openrouter_api_key e; llm_model := llm_model e;
     utcnow := utcnow e; isoformat := isoformat e;
     fromisoformat := fromisoformat e; py_str := py_str e; py_eval := py_eval e;
     calendar_events := calendar_events e;
     summarize_thread := fun _ => r;
     extract_action_items := extract_action_items e;
     http_get := http_get e; http_post := http_post e |}.

Definition with_key (k : option string) (e : Env) : Env :=
  {| fathom_api_key := k; fathom_api_url := fathom_api_url e;
     openrouter_base_url := openrouter_base_url e;
     openrouter_api_key := openrouter_api_key e; llm_model := llm_model e;
     utcnow := utcnow e; isoformat := isoformat e;
     fromisoformat := fromisoformat e; py_str := py_str e; py_eval := py_eval e;
     calendar_events := calendar_events e;
     summarize_thread := summarize_thread e;
     extract_action_items := extract_action_items e;
     http_get := http_get e; http_post := http_post e |}.

(** The provider answers 200 with a body that has no transcript. *)
Definition provider_without_transcript : Env :=
  Sample.with_http_get
    (Ok {| status_code := 200;
           json := Ok (PyDict [("status", PyStr "processing")]);
           text := "" |}) Sample.env_up.

(** The provider answers 200 with a body that is not JSON. *)
Definition provider_garbled : Env :=
  Sample.with_http_get
    (Ok {| status_code := 200; json := Raise ValueError; text := "<html>" |})
    Sample.env_up.

(** A meeting whose attendee field cannot be evaluated, and one without
    an attendee field. *)
Definition garbled : Meeting.t :=
  {| Meeting.id := Some 3; Meeting.account_id := 7;
     Meeting.calendar_id := "primary"; Meeting.event_id := PyStr "ev9";
     Meeting.title := PyStr "Retro"; Meeting.description := PyNone;
     Meeting.start_time := 1; Meeting.end_time := 2;
     Meeting.attendees := PyStr "ann@example.org, bob@example.org";
     Meeting.location := PyNone; Meeting.meeting_link := PyNone;
     Meeting.transcript := PyNone;
     Meeting.prep_summary := PyNone; Meeting.action_items := PyNone;
     Meeting.fathom_id := PyNone; Meeting.summary := PyNone |}.

Definition unattended : Meeting.t :=
  {| Meeting.id := Some 4; Meeting.account_id := 7;
     Meeting.calendar_id := "primary"; Meeting.event_id := PyStr "ev10";
     Meeting.title := PyStr "Focus"; Meeting.description := PyNone;
     Meeting.start_time := 1; Meeting.end_time := 2;
     Meeting.attendees := PyNone;
     Meeting.location := PyNone; Meeting.meeting_link := PyNone;
     Meeting.transcript := PyNone;
     Meeting.prep_summary := PyNone; Meeting.action_items := PyNone;
     Meeting.fathom_id := PyNone; Meeting.summary := PyNone |}.

Definition world4 : World :=
  {| store := {| meetings := [Sample.held; Sample.upcoming; garbled; unattended];
                 pending := [];
                 emails := emails Sample.db;
                 durable := [Sample.held; Sample.upcoming; garbled; unattended];
                 next_id := 5 |};
     trace := [] |}.

(** The backend answers 200 with an empty list of choices. *)
Definition backend_silent : Env :=
  Sample.with_http_post
    (Ok {| status_code := 200; json := Ok (PyDict [("choices", PyList [])]);
           text := "" |}) Sample.env_up.

(** The backend answers with a server error, and the request fails. *)
Definition backend_down : Env :=
  Sample.with_http_post
    (Ok {| status_code := 500; json := Raise ValueError; text := "error" |})
    Sample.env_up.

Definition backend_unreachable : Env :=
  Sample.with_http_post (Raise (ServiceError "connect timeout")) Sample.env_up.

End Cases.

(** ** Properties *)

Ltac unfold_monad :=
  unfold db_query_meeting, db_query_emails, db_add, db_commit, db_write,
    emit, read_store, update_store, lift, try_except, in_world, local_update,
    returning_local, mbind, M_bind, mret, M_ret in *.

(** Appending to the trace one entry at a time, read as one append. *)
Lemma trace_snoc2 (t : list effect) (a b : effect) : (t ++ [a]) ++ [b] = t ++ [a; b].
Proof. by rewrite <- app_assoc. Qed.

Section MissingMeeting.
Variable env : Env.
Variables (meeting_id : Z) (w : World).

(** C6: for a meeting identifier that matches no stored Meeting, prep
    generation returns the empty string; the store is what it was and
    the lookup of the meeting is the only interaction: no e-mail query,
    no language-model call, no commit. *)
Theorem generate_meeting_prep_unknown_meeting :
  find_meeting meeting_id (store w) = None ->
  generate_meeting_prep env meeting_id w = (Ok (PyStr ""), only_looked_up meeting_id w).
Proof.
  intros Hnone. unfold generate_meeting_prep. unfold_monad. cbn.
  by rewrite Hnone.
Qed.

(** C10: for a meeting identifier that matches no stored Meeting,
    follow-up composition returns the empty string, which is not the
    fallback text, and the lookup of the meeting is the only
    interaction: the language-model backend is not called. *)
Theorem generate_followup_email_unknown_meeting :
  find_meeting meeting_id (store w) = None ->
  generate_followup_email env meeting_id w = (Ok (PyStr ""), only_looked_up meeting_id w)
  /\ PyStr "" <> fallback_email.
Proof.
  intros Hnone. split; [|discriminate].
  unfold generate_followup_email. unfold_monad. cbn.
  by rewrite Hnone.
Qed.

(** C5: when the meeting does not exist, or exists with an empty
    (falsy) transcript, action-item extraction returns the empty list;
    the store is what it was and the lookup of the meeting is the only
    interaction: the language-model client is not called. *)
Theorem extract_action_items_without_transcript :
  match find_meeting meeting_id (store w) with
  | None => True
  | Some (_, meeting) => truthy (Meeting.transcript meeting) = false
  end ->
  extract_action_items_from_meeting env meeting_id w
  = (Ok (PyList []), only_looked_up meeting_id w).
Proof.
  intros H. unfold extract_action_items_from_meeting. unfold_monad. cbn.
  destruct (find_meeting meeting_id (store w)) as [[i meeting]|]; [|done].
  by rewrite H.
Qed.

(** The transcripts the data model calls absent are falsy. *)
Lemma empty_transcript_falsy : truthy PyNone = false /\ truthy (PyStr "") = false.
Proof. done. Qed.

End MissingMeeting.

Section TranscriptImport.
Variable env : Env.
Variables (meeting_id : Z) (fathom_recording_id key : string) (w : World).
Hypothesis configured : fathom_api_key env = Some key.
Hypothesis key_not_empty : key <> "".

(** C4: if the provider answers with a status other than 200, or the
    request raises, transcript import returns [None] and the store is
    exactly what it was: no attribute of any Meeting was written. *)
Theorem import_fathom_transcript_failure :
  match provider_answer env fathom_recording_id key with
  | Ok response => status_code response <> 200
  | Raise _ => True
  end ->
  fst (import_fathom_transcript env meeting_id fathom_recording_id w) = Ok PyNone
  /\ store (snd (import_fathom_transcript env meeting_id fathom_recording_id w))
     = store w.
Proof.
  unfold provider_answer, import_fathom_transcript.
  rewrite configured. destruct key as [|c key']; [done|].
  unfold_monad. cbn.
  destruct (http_get env _ _ 30) as [response|e]; cbn; [|done].
  intros Hstatus. apply Z.eqb_neq in Hstatus. by rewrite Hstatus.
Qed.

(** C9: with a 200 answer whose body is a JSON object, and a meeting
    identifier that matches no stored Meeting, transcript import still
    returns the fetched transcript ([data.get('transcript', '')]); the
    store is what it was and the interactions are the request and the
    lookup: nothing is written and no commit is issued. *)
Theorem import_fathom_transcript_unknown_meeting (response : Response)
    (kv : list (string * pyval)) :
  provider_answer env fathom_recording_id key = Ok response ->
  status_code response = 200 ->
  json response = Ok (PyDict kv) ->
  find_meeting meeting_id (store w) = None ->
  import_fathom_transcript env meeting_id fathom_recording_id w
  = (Ok (default (PyStr "") (dict_lookup "transcript" kv)),
     {| store := store w;
        trace := trace w ++ [HttpGet (transcript_url env fathom_recording_id);
                             DbQueryMeeting meeting_id] |}).
Proof.
  unfold provider_answer, import_fathom_transcript.
  intros Hanswer Hstatus Hjson Hnone.
  rewrite configured. destruct key as [|c key']; [done|].
  unfold_monad. cbn. rewrite Hanswer, Hstatus, Hjson. cbn.
  rewrite Hnone, trace_snoc2.
  by destruct (dict_lookup "transcript" kv).
Qed.

End TranscriptImport.

Section Followup.
Variable env : Env.
Variables (meeting_id : Z) (w : World) (i : nat) (meeting : Meeting.t).
Hypothesis found : find_meeting meeting_id (store w) = Some (i, meeting).

(** C8: for an existing Meeting, a 200 answer whose body carries
    [choices[0].message.content] makes follow-up composition return
    exactly that content; an answer with another status, and a request
    that raises, make it return the text "Unable to generate follow-up
    email". *)
Theorem generate_followup_email_outcome :
  (forall response kv choice rest message content,
      backend_answer env meeting = Ok response ->
      status_code response = 200 ->
      json response = Ok (PyDict kv) ->
      dict_lookup "choices" kv = Some (PyList (PyDict choice :: rest)) ->
      dict_lookup "message" choice = Some (PyDict message) ->
      dict_lookup "content" message = Some content ->
      fst (generate_followup_email env meeting_id w) = Ok content)
  /\ (forall response,
      backend_answer env meeting = Ok response ->
      status_code response <> 200 ->
      fst (generate_followup_email env meeting_id w)
      = Ok (PyStr "Unable to generate follow-up email"))
  /\ (forall e,
      backend_answer env meeting = Raise e ->
      fst (generate_followup_email env meeting_id w)
      = Ok (PyStr "Unable to generate follow-up email")).
Proof.
  unfold backend_answer, generate_followup_email.
  unfold_monad. cbn. rewrite found. cbn. split_and!.
  - intros response kv choice rest message content Hanswer Hstatus Hjson Hc Hm Hk.
    rewrite Hanswer, Hstatus, Hjson. cbn. rewrite Hc. cbn. rewrite Hm. cbn.
    by rewrite Hk.
  - intros response Hanswer Hstatus. apply Z.eqb_neq in Hstatus.
    by rewrite Hanswer, Hstatus.
  - intros e Hanswer. by rewrite Hanswer.
Qed.

(** A 200 answer whose body does not have that shape is an exception
    inside the [try], hence the fallback text as well. *)
Lemma generate_followup_email_malformed (response : Response) (e : exn) :
  backend_answer env meeting = Ok response ->
  status_code response = 200 ->
  json response = Raise e ->
  fst (generate_followup_email env meeting_id w) = Ok fallback_email.
Proof.
  unfold backend_answer, generate_followup_email.
  unfold_monad. cbn. rewrite found. cbn.
  intros Hanswer Hstatus Hjson. by rewrite Hanswer, Hstatus, Hjson.
Qed.

End Followup.

Section CalendarSync.
Variable env : Env.
Variable account_id : Z.

Lemma add_rows_nil (st : Store) : add_rows [] st = st.
Proof. destruct st. unfold add_rows. cbn. by rewrite app_nil_r. Qed.

Lemma add_rows_cons (m : Meeting.t) (rows : list Meeting.t) (st : Store) :
  add_rows rows (store_add m st) = add_rows (m :: rows) st.
Proof. unfold add_rows, store_add. cbn. by rewrite <- app_assoc. Qed.

(** The loop over valid events: one [db.add] and one count per event. *)
Lemma sync_loop_valid (events : list pyval) (rows : list Meeting.t) :
  valid_events env account_id events rows ->
  forall (r : SyncResults) (w : World),
    sync_loop env account_id events (r, w)
    = (Ok tt,
       ({| synced := synced r + Z.of_nat (length events); errors := errors r |},
        {| store := add_rows rows (store w);
           trace := trace w ++ map DbAdd rows |})).
Proof.
  induction 1 as [|event m events rows Hbuild _ IH]; intros r w.
  - cbn. unfold_monad. rewrite add_rows_nil, app_nil_r, Z.add_0_r.
    by destruct r, w.
  - rewrite length_cons, Nat2Z.inj_succ.
    cbn [sync_loop]. unfold_monad. cbn. rewrite Hbuild. cbn.
    rewrite IH. cbn. rewrite add_rows_cons, <- app_assoc. cbn.
    do 3 f_equal. lia.
Qed.

(** The loop that meets an event whose processing raises: the rows of
    the events before it were added and counted, then the exception
    leaves the loop. *)
Lemma sync_loop_raises (processed rest : list pyval) (bad : pyval)
    (rows : list Meeting.t) (e : exn) :
  valid_events env account_id processed rows ->
  build_meeting env account_id bad = Raise e ->
  forall (r : SyncResults) (w : World),
    sync_loop env account_id (processed ++ bad :: rest) (r, w)
    = (Raise e,
       ({| synced := synced r + Z.of_nat (length processed); errors := errors r |},
        {| store := add_rows rows (store w);
           trace := trace w ++ map DbAdd rows |})).
Proof.
  intros Hvalid Hbad.
  induction Hvalid as [|event m events rows Hbuild _ IH]; intros r w.
  - cbn. unfold_monad. rewrite Hbad. cbn.
    rewrite add_rows_nil, app_nil_r, Z.add_0_r. by destruct r, w.
  - rewrite <- app_comm_cons, length_cons, Nat2Z.inj_succ.
    cbn [sync_loop]. unfold_monad. cbn. rewrite Hbuild. cbn.
    rewrite IH. cbn. rewrite add_rows_cons, <- app_assoc. cbn.
    do 3 f_equal. lia.
Qed.

Lemma valid_events_length (events : list pyval) (rows : list Meeting.t) :
  valid_events env account_id events rows -> length rows = length events.
Proof. intros H. symmetry. by eapply Forall2_length. Qed.

Lemma length_stamp (n : Z) (rows : list Meeting.t) :
  length (stamp n rows) = length rows.
Proof.
  revert n. induction rows as [|m rows IH]; intros n; cbn; [done|].
  by rewrite IH.
Qed.

(** C3 (as amended): when the calendar answers with [events], all N
    of them valid, the sync returns [synced = N] and [errors = 0];
    [db.add] was called on exactly the N rows built from the events, in
    order, and one commit, issued after the last of them, made those
    rows persistent together with the rows that were still pending in
    the session: the store gains N rows plus the pending ones, and
    exactly N rows when nothing was pending. *)
Theorem sync_calendar_events_all_valid (w : World) (response : pyval)
    (events : list pyval) (rows : list Meeting.t) :
  calendar_answer env = Ok response ->
  get response "items" (PyList []) = Ok (PyList events) ->
  valid_events env account_id events rows ->
  let out := sync_calendar_events env account_id w in
  let after := store (snd out) in
  fst out = Ok {| synced := Z.of_nat (length events); errors := 0 |}
  /\ length rows = length events
  /\ trace (snd out)
     = trace w ++ [CalendarList "primary" (time_min env) (time_max env)]
               ++ map DbAdd rows ++ [DbCommit]
  /\ after = store_commit (add_rows rows (store w))
  /\ meetings after
     = meetings (store w) ++ stamp (next_id (store w)) (pending (store w) ++ rows)
  /\ durable after = meetings after
  /\ pending after = []
  /\ length (meetings after)
     = (length (meetings (store w)) + length (pending (store w))
        + length events)%nat
  /\ (pending (store w) = [] ->
      meetings after = meetings (store w) ++ stamp (next_id (store w)) rows
      /\ length (meetings after)
         = (length (meetings (store w)) + length events)%nat).
Proof.
  intros Hanswer Hitems Hvalid out after.
  assert (out = (Ok {| synced := Z.of_nat (length events); errors := 0 |},
                 {| store := store_commit (add_rows rows (store w));
                    trace := trace w
                      ++ [CalendarList "primary" (time_min env) (time_max env)]
                      ++ map DbAdd rows ++ [DbCommit] |})) as Hout.
  { subst out. unfold sync_calendar_events, sync_body.
    unfold calendar_answer in Hanswer.
    unfold returning_local, try_except, mbind, M_bind, in_world, lift, emit.
    cbn. rewrite Hanswer, Hitems. cbn.
    rewrite (sync_loop_valid _ _ Hvalid). cbn.
    unfold db_commit. unfold_monad. cbn.
    by rewrite <- !app_assoc. }
  subst after. rewrite Hout. cbn.
  pose proof (valid_events_length _ _ Hvalid) as Hlen.
  split_and!; try done.
  - rewrite !length_app, length_stamp, length_app. lia.
  - intros Hpending. rewrite Hpending. cbn. split; [done|].
    rewrite length_app, length_stamp. lia.
Qed.

(** C2: when the processing of an event raises after [processed]
    events went through, the sync returns [errors = 1], whatever the
    number of processed events (which [synced] still reports); the
    loop was left at that event, no commit was issued, and the
    committed rows are what they were.  The rows of the processed
    events stay pending in the session. *)
Theorem sync_calendar_events_aborts (w : World) (response : pyval)
    (processed rest : list pyval) (bad : pyval)
    (rows : list Meeting.t) (e : exn) :
  calendar_answer env = Ok response ->
  get response "items" (PyList []) = Ok (PyList (processed ++ bad :: rest)) ->
  valid_events env account_id processed rows ->
  build_meeting env account_id bad = Raise e ->
  let out := sync_calendar_events env account_id w in
  let after := store (snd out) in
  fst out = Ok {| synced := Z.of_nat (length processed); errors := 1 |}
  /\ trace (snd out)
     = trace w ++ [CalendarList "primary" (time_min env) (time_max env)]
               ++ map DbAdd rows ++ [LogError "Error syncing calendar: " e]
  /\ (DbCommit ∉ map DbAdd rows ++ [LogError "Error syncing calendar: " e])
  /\ durable after = durable (store w)
  /\ meetings after = meetings (store w)
  /\ pending after = pending (store w) ++ rows.
Proof.
  intros Hanswer Hitems Hvalid Hbad out after.
  assert (out = (Ok {| synced := Z.of_nat (length processed); errors := 1 |},
                 {| store := add_rows rows (store w);
                    trace := trace w
                      ++ [CalendarList "primary" (time_min env) (time_max env)]
                      ++ map DbAdd rows
                      ++ [LogError "Error syncing calendar: " e] |})) as Hout.
  { subst out. unfold sync_calendar_events, sync_body.
    unfold calendar_answer in Hanswer.
    unfold returning_local, try_except, mbind, M_bind, in_world, lift, emit,
      local_update.
    cbn. rewrite Hanswer, Hitems. cbn.
    rewrite (sync_loop_raises _ _ _ _ _ Hvalid Hbad). cbn.
    by rewrite <- !app_assoc. }
  subst after. rewrite Hout. cbn.
  split_and!; try done.
  rewrite elem_of_app, list_elem_of_fmap, list_elem_of_singleton.
  intros [(m & Hm & _)|Hm]; discriminate.
Qed.

(** X4: An exception raised by the calendar request itself is counted the
    same way, before any event was seen. *)
Lemma sync_calendar_events_request_fails (w : World) (e : exn) :
  calendar_answer env = Raise e ->
  sync_calendar_events env account_id w
  = (Ok {| synced := 0; errors := 1 |},
     {| store := store w;
        trace := trace w ++ [CalendarList "primary" (time_min env) (time_max env);
                             LogError "Error syncing calendar: " e] |}).
Proof.
  intros Hanswer. unfold calendar_answer in Hanswer.
  unfold sync_calendar_events, sync_body.
  unfold returning_local, try_except, mbind, M_bind, in_world, lift, emit,
    local_update.
  cbn. rewrite Hanswer. cbn. by rewrite <- app_assoc.
Qed.

End CalendarSync.

Section MeetingPrep.
Variable env : Env.

#[local] Instance newer_first_trans : Transitive newer_first.
Proof. unfold newer_first. intros a b c Hab Hbc. lia. Qed.

#[local] Instance newer_first_total : Total newer_first.
Proof. unfold newer_first. intros a b. lia. Qed.

(** [s[:n]] is a prefix of [s] of length [min n (len s)]. *)
Lemma substring_prefix (n : nat) (s : string) :
  String.prefix (String.substring 0 n s) s = true.
Proof.
  revert s. induction n as [|n IH]; intros [|c s]; cbn; try done.
  destruct (Ascii.ascii_dec c c); [apply IH|done].
Qed.

Lemma substring_length (n : nat) (s : string) :
  String.length (String.substring 0 n s) = Nat.min n (String.length s).
Proof.
  revert s. induction n as [|n IH]; intros [|c s]; cbn; try done.
  by rewrite IH.
Qed.

Lemma email_entry_truncated (e : Email.t) : truncated env e (email_entry env e).
Proof.
  unfold truncated, email_entry. cbn.
  split_and!; try done; [apply substring_prefix|apply substring_length].
Qed.

(** The query returns what the spec describes. *)
Lemma query_emails_newest_matching (attendees : list pyval) (st : Store) :
  newest_matching attendees (emails st) (query_emails attendees st).
Proof.
  unfold newest_matching, query_emails.
  set (matching := filter _ (emails st)).
  set (sorted := merge_sort newer_first matching).
  assert (StronglySorted newer_first (take 10 sorted ++ drop 10 sorted)) as Hsorted.
  { rewrite take_drop. apply StronglySorted_merge_sort; apply _. }
  split_and!.
  - rewrite length_take. lia.
  - by eapply StronglySorted_app_1_l.
  - exists (drop 10 sorted). split_and!.
    + rewrite take_drop. apply merge_sort_Permutation.
    + intros s o Hs Ho.
      by apply (StronglySorted_app_1_elem_of _ _ _ _ _ Hsorted).
    + intros Hmore. apply length_take_le.
      destruct (decide (10 <= length sorted)%nat) as [|Hshort]; [done|].
      destruct Hmore. apply drop_ge. lia.
Qed.

Variables (meeting_id : Z) (w : World) (i : nat) (meeting : Meeting.t).
Hypothesis found : find_meeting meeting_id (store w) = Some (i, meeting).

Lemma found_position : (i < length (meetings (store w)))%nat.
Proof.
  unfold find_meeting in found. apply list_find_Some in found as (Hi & _ & _).
  by eapply lookup_lt_Some.
Qed.

(** C7: for an existing Meeting whose attendee field is a string that
    evaluates to a list, prep generation queries the e-mails of those
    senders: at most ten, newest first, none of the matching e-mails
    left out being newer than a selected one.  The summarization call
    receives one entry per selected e-mail, in that order, with the
    body cut to its first 500 characters.  When the call returns a
    summary, the summary is written to the Meeting and committed, and
    it is the value returned: the row of the Meeting then has that
    summary as its [prep_summary], in the session and in the committed
    rows, and its other attributes are what they were. *)
Theorem generate_meeting_prep_existing (src : string) (attendees : list pyval) :
  Meeting.attendees meeting = PyStr src ->
  py_eval env src = Ok (PyList attendees) ->
  let selected := query_emails attendees (store w) in
  let email_data := map (email_entry env) selected in
  newest_matching attendees (emails (store w)) selected
  /\ Forall2 (truncated env) selected email_data
  /\ (forall e,
      summarize_thread env email_data = Raise e ->
      trace (snd (generate_meeting_prep env meeting_id w))
      = trace w ++ [DbQueryMeeting meeting_id; DbQueryEmail attendees;
                    LlmSummarize email_data;
                    LogError "Error generating meeting prep: " e])
  /\ (forall summary,
      summarize_thread env email_data = Ok summary ->
      let out := generate_meeting_prep env meeting_id w in
      fst out = Ok summary
      /\ trace (snd out)
         = trace w ++ [DbQueryMeeting meeting_id; DbQueryEmail attendees;
                       LlmSummarize email_data; DbCommit]
      /\ store (snd out)
         = store_commit
             (store_write i (Meeting.set_prep_summary summary meeting) (store w))
      /\ meetings (store (snd out)) !! i
         = Some (Meeting.set_prep_summary summary meeting)
      /\ durable (store (snd out)) !! i
         = Some (Meeting.set_prep_summary summary meeting)
      /\ exists row,
          meetings (store (snd out)) !! i = Some row
          /\ durable (store (snd out)) !! i = Some row
          /\ Meeting.prep_summary row = summary
          /\ Meeting.id row = Meeting.id meeting
          /\ Meeting.title row = Meeting.title meeting
          /\ Meeting.attendees row = Meeting.attendees meeting
          /\ Meeting.transcript row = Meeting.transcript meeting
          /\ Meeting.action_items row = Meeting.action_items meeting
          /\ Meeting.fathom_id row = Meeting.fathom_id meeting).
Proof.
  intros Hstr Heval selected email_data. split_and!.
  - apply query_emails_newest_matching.
  - subst email_data. apply Forall2_fmap_r, Forall_Forall2_diag, Forall_forall.
    intros e _. apply email_entry_truncated.
  - intros e Hsum. unfold generate_meeting_prep. unfold_monad. cbn.
    rewrite found. cbn. rewrite Hstr, Heval. cbn.
    fold selected. fold email_data. rewrite Hsum. cbn.
    by rewrite <- !app_assoc.
  - intros summary Hsum out.
    assert (out = (Ok summary,
                   {| store := store_commit
                        (store_write i (Meeting.set_prep_summary summary meeting)
                           (store w));
                      trace := trace w ++ [DbQueryMeeting meeting_id;
                                           DbQueryEmail attendees;
                                           LlmSummarize email_data; DbCommit] |}))
      as Hout.
    { subst out. unfold generate_meeting_prep. unfold_monad. cbn.
      rewrite found. cbn. rewrite Hstr, Heval. cbn.
      fold selected. fold email_data. rewrite Hsum. cbn.
      by rewrite <- !app_assoc. }
    rewrite Hout. cbn.
    assert ((<[i:=Meeting.set_prep_summary summary meeting]> (meetings (store w))
             ++ stamp (next_id (store w)) (pending (store w))) !! i
            = Some (Meeting.set_prep_summary summary meeting)) as Hrow.
    { rewrite lookup_app_l by (rewrite length_insert; apply found_position).
      apply list_lookup_insert_eq, found_position. }
    split_and!; try done.
    exists (Meeting.set_prep_summary summary meeting). by split_and!.
Qed.

End MeetingPrep.

Section FailurePolicy.
Variable env : Env.





(** [extract_action_items_from_meeting] has no [try]: an exception of
    the language-model client leaves the method. *)
Lemma extract_action_items_propagates (meeting_id : Z) (w : World)
    (i : nat) (meeting : Meeting.t) (e : exn) :
  find_meeting meeting_id (store w) = Some (i, meeting) ->
  truthy (Meeting.transcript meeting) = true ->
  extract_action_items env (Meeting.transcript meeting) = Raise e ->
  extract_action_items_from_meeting env meeting_id w
  = (Raise e,
     {| store := store w;
        trace := trace w ++ [DbQueryMeeting meeting_id;
                             LlmExtract (Meeting.transcript meeting)] |}).
Proof.
  intros Hfound Htruthy Hraise.
  unfold extract_action_items_from_meeting. unfold_monad. cbn.
  rewrite Hfound. cbn. rewrite Htruthy. cbn. rewrite Hraise.
  by rewrite <- app_assoc.
Qed.

End FailurePolicy.

(** C1: the failure policy does not hold for
    [extract_action_items_from_meeting]: for the meeting that was held,
    with a language-model client that raises, the exception reaches the
    caller instead of an empty list. *)
Theorem extract_action_items_exception_escapes :
  fst (extract_action_items_from_meeting
         (Sample.with_extract (Raise (ServiceError "timeout")) Sample.env_up)
         1 Sample.world)
  = Raise (ServiceError "timeout").
Proof. reflexivity. Qed.

(** ** The statements on the sample data *)

Lemma generate_meeting_prep_unknown_meeting_witness :
  find_meeting 99 (store Sample.world) = None
  /\ generate_meeting_prep Sample.env_up 99 Sample.world
     = (Ok (PyStr ""), only_looked_up 99 Sample.world).
Proof.
  split; [reflexivity|].
  apply (generate_meeting_prep_unknown_meeting Sample.env_up 99 Sample.world).
  reflexivity.
Defined.

Lemma generate_followup_email_unknown_meeting_witness :
  find_meeting 99 (store Sample.world) = None
  /\ generate_followup_email Sample.env_up 99 Sample.world
     = (Ok (PyStr ""), only_looked_up 99 Sample.world).
Proof.
  split; [reflexivity|].
  apply (generate_followup_email_unknown_meeting Sample.env_up 99 Sample.world).
  reflexivity.
Defined.

Lemma extract_action_items_without_transcript_witness :
  find_meeting 2 (store Sample.world) = Some (1%nat, Sample.upcoming)
  /\ Meeting.transcript Sample.upcoming = PyNone
  /\ extract_action_items_from_meeting Sample.env_up 2 Sample.world
     = (Ok (PyList []), only_looked_up 2 Sample.world).
Proof.
  split_and!; [reflexivity..|].
  apply (extract_action_items_without_transcript Sample.env_up 2 Sample.world).
  reflexivity.
Defined.

Lemma import_fathom_transcript_failure_witness :
  fst (import_fathom_transcript Sample.provider_down 1 "rec-1" Sample.world)
  = Ok PyNone
  /\ store (snd (import_fathom_transcript Sample.provider_down 1 "rec-1" Sample.world))
     = store Sample.world.
Proof.
  apply (import_fathom_transcript_failure Sample.provider_down 1 "rec-1" "k"
           Sample.world).
  - reflexivity.
  - discriminate.
  - vm_compute. discriminate.
Defined.

Lemma import_fathom_transcript_unknown_meeting_witness :
  import_fathom_transcript Sample.env_up 99 "rec-1" Sample.world
  = (Ok (PyStr "hello"),
     {| store := store Sample.world;
        trace := [HttpGet "https://fathom.test/v1/recordings/rec-1/transcript";
                  DbQueryMeeting 99] |}).
Proof.
  apply (import_fathom_transcript_unknown_meeting Sample.env_up 99 "rec-1" "k"
           Sample.world eq_refl ltac:(discriminate)
           {| status_code := 200;
              json := Ok (PyDict [("transcript", PyStr "hello")]);
              text := "" |}
           [("transcript", PyStr "hello")]); reflexivity.
Defined.

Lemma generate_followup_email_outcome_witness :
  fst (generate_followup_email Sample.env_up 1 Sample.world) = Ok (PyStr "Dear all")
  /\ fst (generate_followup_email Cases.backend_down 1 Sample.world)
     = Ok (PyStr "Unable to generate follow-up email")
  /\ fst (generate_followup_email Cases.backend_unreachable 1 Sample.world)
     = Ok (PyStr "Unable to generate follow-up email").
Proof.
  split_and!.
  - destruct (generate_followup_email_outcome Sample.env_up 1 Sample.world 0
                Sample.held eq_refl) as (Hok & _).
    eapply Hok; reflexivity.
  - destruct (generate_followup_email_outcome Cases.backend_down 1 Sample.world 0
                Sample.held eq_refl) as (_ & Hstatus & _).
    eapply Hstatus; [reflexivity|]. cbn. discriminate.
  - destruct (generate_followup_email_outcome Cases.backend_unreachable 1
                Sample.world 0 Sample.held eq_refl) as (_ & _ & Hraise).
    eapply Hraise. reflexivity.
Defined.

Lemma sync_calendar_events_all_valid_witness :
  fst (sync_calendar_events Sample.env_up 7 Sample.world)
  = Ok {| synced := 2; errors := 0 |}
  /\ length (meetings (store (snd (sync_calendar_events Sample.env_up 7 Sample.world))))
     = 4%nat
  /\ pending (store Sample.world) = []
  /\ length (meetings (store (snd (sync_calendar_events Sample.env_up 7 Sample.world))))
     = (length (meetings (store Sample.world)) + 2)%nat.
Proof.
  destruct (sync_calendar_events_all_valid Sample.env_up 7 Sample.world
              (PyDict [("items", PyList [Sample.event_ok; Sample.event_all_day])])
              [Sample.event_ok; Sample.event_all_day]
              (Sample.row_of Sample.event_ok ++ Sample.row_of Sample.event_all_day))
    as (Hcount & _ & _ & _ & Hrows & _ & _ & _ & Hexact).
  - reflexivity.
  - reflexivity.
  - repeat constructor.
  - split_and!; [exact Hcount| |reflexivity|].
    + rewrite Hrows. reflexivity.
    + destruct (Hexact eq_refl) as (_ & Hlength). exact Hlength.
Defined.

(** C3 as the spec words it fails on a session that still holds rows
    of an aborted sync: the calendar answers with two valid events, no
    exception occurs, the sync returns [synced = 2] and [errors = 0],
    and the store gains three rows, not two. *)
Lemma sync_calendar_events_all_valid_counterexample :
  let w := Cases.after_abort in
  let out := sync_calendar_events Sample.env_up 7 w in
  calendar_answer Sample.env_up
  = Ok (PyDict [("items", PyList [Sample.event_ok; Sample.event_all_day])])
  /\ valid_events Sample.env_up 7 [Sample.event_ok; Sample.event_all_day]
       (Sample.row_of Sample.event_ok ++ Sample.row_of Sample.event_all_day)
  /\ fst out = Ok {| synced := 2; errors := 0 |}
  /\ length (meetings (store (snd out))) = (length (meetings (store w)) + 3)%nat
  /\ length (durable (store (snd out))) = (length (durable (store w)) + 3)%nat
  /\ length (meetings (store (snd out))) <> (length (meetings (store w)) + 2)%nat
  /\ length (durable (store (snd out))) <> (length (durable (store w)) + 2)%nat.
Proof.
  cbv zeta. split_and!; try reflexivity.
  - repeat constructor.
  - vm_compute. discriminate.
  - vm_compute. discriminate.
Qed.

Lemma sync_calendar_events_aborts_witness :
  fst (sync_calendar_events Sample.calendar_with_untitled 7 Sample.world)
  = Ok {| synced := 1; errors := 1 |}
  /\ durable (store (snd (sync_calendar_events Sample.calendar_with_untitled 7
                            Sample.world)))
     = durable (store Sample.world).
Proof.
  destruct (sync_calendar_events_aborts Sample.calendar_with_untitled 7 Sample.world
              (PyDict [("items", PyList [Sample.event_ok; Sample.event_untitled;
                                         Sample.event_all_day])])
              [Sample.event_ok] [Sample.event_all_day] Sample.event_untitled
              (Sample.row_of Sample.event_ok) (KeyError "summary"))
    as (Hcount & _ & _ & Hdurable & _).
  - reflexivity.
  - reflexivity.
  - repeat constructor.
  - reflexivity.
  - split; [exact Hcount|exact Hdurable].
Defined.

Lemma generate_meeting_prep_existing_witness :
  fst (generate_meeting_prep Sample.env_up 1 Sample.world) = Ok (PyStr "brief")
  /\ query_emails [PyStr "ann@example.org"] (store Sample.world)
     = [Sample.mail "ann@example.org" 8; Sample.mail "ann@example.org" 5]
  /\ Meeting.prep_summary Sample.held = PyNone
  /\ (Meeting.prep_summary <$>
        meetings (store (snd (generate_meeting_prep Sample.env_up 1 Sample.world)))
          !! 0%nat)
     = Some (PyStr "brief")
  /\ (Meeting.prep_summary <$>
        durable (store (snd (generate_meeting_prep Sample.env_up 1 Sample.world)))
          !! 0%nat)
     = Some (PyStr "brief").
Proof.
  destruct (generate_meeting_prep_existing Sample.env_up 1 Sample.world 0
              Sample.held eq_refl "['ann@example.org']" [PyStr "ann@example.org"]
              eq_refl eq_refl) as (_ & _ & _ & Hok).
  destruct (Hok (PyStr "brief") eq_refl)
    as (Hret & _ & _ & _ & _ & row & Hsession & Hdurable & Hsummary & _).
  split_and!; [exact Hret|reflexivity|reflexivity| |].
  - rewrite Hsession. cbn. rewrite Hsummary. reflexivity.
  - rewrite Hdurable. cbn. rewrite Hsummary. reflexivity.
Defined.

(** ** Further properties of the calendar sync *)

Section SyncRuns.
Variable env : Env.
Variable account_id : Z.

(** A list of events is valid as a whole, or it has a first event whose
    processing raises. *)
Lemma events_valid_or_first_failure (events : list pyval) :
  (exists rows, valid_events env account_id events rows)
  \/ (exists processed bad rest rows e,
        events = processed ++ bad :: rest
        /\ valid_events env account_id processed rows
        /\ build_meeting env account_id bad = Raise e).
Proof.
  induction events as [|event events IH].
  - left. exists []. constructor.
  - destruct (build_meeting env account_id event) as [m|e] eqn:Hbuild.
    + destruct IH as [(rows & Hrows)|(processed & bad & rest & rows & e & -> & Hrows & Hbad)].
      * left. exists (m :: rows). by constructor.
      * right. exists (event :: processed), bad, rest, (m :: rows), e.
        split_and!; [done| |done]. by constructor.
    + right. exists [], event, events, [], e. split_and!; [done| |done]. constructor.
Qed.

(** Every run of the sync has one of two shapes: all events went
    through and the commit was issued, or an exception stopped the run
    after some rows were added and the error was logged and counted. *)
Lemma sync_calendar_events_shape (w : World) :
  (exists rows,
      sync_calendar_events env account_id w
      = (Ok {| synced := Z.of_nat (length rows); errors := 0 |},
         {| store := store_commit (add_rows rows (store w));
            trace := trace w ++ calendar_request env :: map DbAdd rows ++ [DbCommit] |}))
  \/ (exists rows e,
      sync_calendar_events env account_id w
      = (Ok {| synced := Z.of_nat (length rows); errors := 1 |},
         {| store := add_rows rows (store w);
            trace := trace w ++ calendar_request env :: map DbAdd rows ++ [sync_error e] |})).
Proof.
  unfold sync_calendar_events, sync_body, calendar_request, sync_error.
  unfold returning_local, try_except, mbind, M_bind, in_world, lift, emit,
    local_update.
  cbn.
  destruct (calendar_events env "primary" (time_min env) (time_max env))
    as [response|e]; cbn.
  2:{ right. exists [], e. cbn. by rewrite add_rows_nil, <- app_assoc. }
  destruct (get response "items" (PyList [])) as [items|e]; cbn.
  2:{ right. exists [], e. cbn. by rewrite add_rows_nil, <- app_assoc. }
  destruct (iter items) as [events|e]; cbn.
  2:{ right. exists [], e. cbn. by rewrite add_rows_nil, <- app_assoc. }
  destruct (events_valid_or_first_failure events)
    as [(rows & Hrows)|(processed & bad & rest & rows & e & -> & Hrows & Hbad)].
  - left. exists rows. rewrite (sync_loop_valid _ _ _ _ Hrows). cbn.
    unfold db_commit. unfold_monad. cbn.
    rewrite (valid_events_length _ _ _ _ Hrows). by rewrite <- !app_assoc.
  - right. exists rows, e.
    rewrite (sync_loop_raises _ _ _ _ _ _ _ Hrows Hbad). cbn.
    rewrite (valid_events_length _ _ _ _ Hrows). by rewrite <- !app_assoc.
Qed.

(** The same two shapes, for a calendar answer that is known. *)
Lemma sync_run_valid (w : World) (response items : pyval)
    (events : list pyval) (rows : list Meeting.t) :
  calendar_answer env = Ok response ->
  get response "items" (PyList []) = Ok items ->
  iter items = Ok events ->
  valid_events env account_id events rows ->
  sync_calendar_events env account_id w
  = (Ok {| synced := Z.of_nat (length rows); errors := 0 |},
     {| store := store_commit (add_rows rows (store w));
        trace := trace w ++ calendar_request env :: map DbAdd rows ++ [DbCommit] |}).
Proof.
  unfold calendar_answer. intros Hanswer Hitems Hiter Hrows.
  unfold sync_calendar_events, sync_body, calendar_request.
  unfold returning_local, try_except, mbind, M_bind, in_world, lift, emit.
  cbn. rewrite Hanswer. cbn. rewrite Hitems. cbn. rewrite Hiter. cbn.
  rewrite (sync_loop_valid _ _ _ _ Hrows). cbn.
  unfold db_commit. unfold_monad. cbn.
  rewrite (valid_events_length _ _ _ _ Hrows). by rewrite <- !app_assoc.
Qed.

Lemma sync_run_aborts (w : World) (response items : pyval)
    (processed rest : list pyval) (bad : pyval) (rows : list Meeting.t) (e : exn) :
  calendar_answer env = Ok response ->
  get response "items" (PyList []) = Ok items ->
  iter items = Ok (processed ++ bad :: rest) ->
  valid_events env account_id processed rows ->
  build_meeting env account_id bad = Raise e ->
  sync_calendar_events env account_id w
  = (Ok {| synced := Z.of_nat (length rows); errors := 1 |},
     {| store := add_rows rows (store w);
        trace := trace w ++ calendar_request env :: map DbAdd rows ++ [sync_error e] |}).
Proof.
  unfold calendar_answer. intros Hanswer Hitems Hiter Hrows Hbad.
  unfold sync_calendar_events, sync_body, calendar_request, sync_error.
  unfold returning_local, try_except, mbind, M_bind, in_world, lift, emit,
    local_update.
  cbn. rewrite Hanswer. cbn. rewrite Hitems. cbn. rewrite Hiter. cbn.
  rewrite (sync_loop_raises _ _ _ _ _ _ _ Hrows Hbad). cbn.
  rewrite (valid_events_length _ _ _ _ Hrows). by rewrite <- !app_assoc.
Qed.

Lemma count_adds_rows (rows : list Meeting.t) (last : effect) :
  is_add last = false ->
  count_adds (calendar_request env :: map DbAdd rows ++ [last]) = length rows.
Proof.
  intros Hlast. unfold count_adds. cbn.
  rewrite List.filter_app. cbn. rewrite Hlast. cbn.
  rewrite length_app. cbn. rewrite Nat.add_0_r.
  induction rows as [|m rows IH]; cbn; [done|]. by rewrite IH.
Qed.

(** X1: The sync commits exactly when it reports no error.  In every run the
    result carries [errors = 0] or [errors = 1]; with 0 the last
    interaction is the commit, nothing is pending and the committed rows
    are the session's rows; with 1 no commit was issued and the committed
    rows and the session's keyed rows are what they were. *)
Theorem sync_calendar_events_commits_iff_no_error (w : World) :
  let out := sync_calendar_events env account_id w in
  exists r t,
    fst out = Ok r
    /\ trace (snd out) = trace w ++ t
    /\ ((errors r = 0
         /\ last t = Some DbCommit
         /\ pending (store (snd out)) = []
         /\ durable (store (snd out)) = meetings (store (snd out)))
        \/ (errors r = 1
            /\ (DbCommit ∉ t)
            /\ durable (store (snd out)) = durable (store w)
            /\ meetings (store (snd out)) = meetings (store w))).
Proof.
  intros out. subst out.
  destruct (sync_calendar_events_shape w) as [(rows & ->)|(rows & e & ->)]; cbn.
  - eexists _, _. split_and!; [done..|]. left. split_and!; try done.
    by rewrite app_comm_cons, last_snoc.
  - eexists _, _. split_and!; [done..|]. right. split_and!; try done.
    rewrite elem_of_cons, elem_of_app, list_elem_of_fmap, list_elem_of_singleton.
    intros [H|[(m & H & _)|H]]; discriminate.
Qed.

(** X2: In every run [synced] is the number of [db.add] calls of the run. *)
Theorem sync_calendar_events_counts_adds (w : World) :
  let out := sync_calendar_events env account_id w in
  exists r t,
    fst out = Ok r
    /\ trace (snd out) = trace w ++ t
    /\ synced r = Z.of_nat (count_adds t).
Proof.
  intros out. subst out.
  destruct (sync_calendar_events_shape w) as [(rows & ->)|(rows & e & ->)]; cbn.
  all: eexists _, _; split_and!; [reflexivity..|].
  all: by rewrite count_adds_rows.
Qed.

(** X3: The sync only ever appends: in every run the session's keyed rows
    before the run are a prefix of those after it, in the same order and
    with the same attributes, and the e-mails are untouched.  No row is
    looked up, so an event that was synced before is added again. *)
Theorem sync_calendar_events_only_appends (w : World) :
  let out := sync_calendar_events env account_id w in
  exists t,
    trace (snd out) = trace w ++ t
    /\ (forall meeting_id, DbQueryMeeting meeting_id ∉ t)
    /\ meetings (store w) `prefix_of` meetings (store (snd out))
    /\ emails (store (snd out)) = emails (store w).
Proof.
  intros out. subst out.
  destruct (sync_calendar_events_shape w) as [(rows & ->)|(rows & e & ->)]; cbn.
  all: eexists; split_and!; [reflexivity| | |done].
  all: try (intros meeting_id;
            rewrite elem_of_cons, elem_of_app, list_elem_of_fmap,
              list_elem_of_singleton;
            intros [H|[(m & H & _)|H]]; discriminate).
  - by eexists.
  - exists []. by rewrite app_nil_r.
Qed.

(** X5: A calendar answer without an ["items"] key is an empty list of
    events: nothing is added, nothing is counted, and the commit is
    issued all the same. *)
Theorem sync_calendar_events_no_items (w : World) (kv : list (string * pyval)) :
  calendar_answer env = Ok (PyDict kv) ->
  dict_lookup "items" kv = None ->
  sync_calendar_events env account_id w
  = (Ok {| synced := 0; errors := 0 |},
     {| store := store_commit (store w);
        trace := trace w ++ [calendar_request env; DbCommit] |}).
Proof.
  intros Hanswer Hitems.
  rewrite (sync_run_valid w (PyDict kv) (PyList []) [] [] Hanswer).
  - by rewrite add_rows_nil.
  - cbn. by rewrite Hitems.
  - done.
  - constructor.
Qed.

(** X6: An answer that is not a JSON object, or whose ["items"] is [null], a
    number or a boolean, is an exception of the run: one error, no row,
    no commit, the store as it was. *)
Theorem sync_calendar_events_unusable_answer (w : World) (response : pyval) :
  calendar_answer env = Ok response ->
  match response with
  | PyDict kv =>
      match dict_lookup "items" kv with
      | Some (PyNone | PyBool _ | PyInt _) => True
      | _ => False
      end
  | _ => True
  end ->
  exists e,
    sync_calendar_events env account_id w
    = (Ok {| synced := 0; errors := 1 |},
       {| store := store w;
          trace := trace w ++ [calendar_request env; sync_error e] |})
    /\ e = match response with PyDict _ => TypeError | _ => AttributeError end.
Proof.
  unfold calendar_answer. intros Hanswer Hshape.
  unfold sync_calendar_events, sync_body, calendar_request, sync_error.
  unfold returning_local, try_except, mbind, M_bind, in_world, lift, emit,
    local_update.
  cbn. rewrite Hanswer. cbn.
  destruct response as [| | | | |kv]; cbn;
    try (eexists; split; [by rewrite <- app_assoc|done]).
  destruct (dict_lookup "items" kv) as [[| | | | |]|]; try done; cbn.
  all: eexists; split; [by rewrite <- app_assoc|done].
Qed.

(** X7: One invalid event anywhere in the answer is enough: whatever its
    position and whatever the other events are, the run reports one
    error, issues no commit and leaves the committed rows as they
    were. *)
Theorem sync_calendar_events_any_invalid_event (w : World) (response : pyval)
    (events : list pyval) (bad : pyval) (e : exn) :
  calendar_answer env = Ok response ->
  get response "items" (PyList []) = Ok (PyList events) ->
  bad ∈ events ->
  build_meeting env account_id bad = Raise e ->
  let out := sync_calendar_events env account_id w in
  exists r t,
    fst out = Ok r
    /\ errors r = 1
    /\ 0 <= synced r < Z.of_nat (length events)
    /\ trace (snd out) = trace w ++ t
    /\ (DbCommit ∉ t)
    /\ durable (store (snd out)) = durable (store w).
Proof.
  intros Hanswer Hitems Hin Hbad out. subst out.
  destruct (events_valid_or_first_failure events)
    as [(rows & Hrows)|(processed & first & rest & rows & e' & -> & Hrows & Hfirst)].
  - apply list_elem_of_lookup in Hin as (i & Hi).
    destruct (Forall2_lookup_l _ _ _ _ _ Hrows Hi) as (m & _ & Hm). congruence.
  - rewrite (sync_run_aborts w _ _ _ _ _ _ _ Hanswer Hitems eq_refl Hrows Hfirst).
    eexists _, _. split_and!; [reflexivity|reflexivity|cbn; lia| |reflexivity| |done].
    + cbn. rewrite (valid_events_length _ _ _ _ Hrows), length_app. cbn. lia.
    + rewrite elem_of_cons, elem_of_app, list_elem_of_fmap, list_elem_of_singleton.
      intros [H|[(m & H & _)|H]]; discriminate.
Qed.

End SyncRuns.

(** X8: The rows an aborted sync left pending are committed by the next
    sync that succeeds on the same session: its commit writes them
    before its own rows. *)
Theorem aborted_rows_committed_by_next_sync (env1 env2 : Env) (a1 a2 : Z) (w : World)
    (response1 response2 : pyval) (processed rest events : list pyval) (bad : pyval)
    (rows1 rows2 : list Meeting.t) (e : exn) :
  calendar_answer env1 = Ok response1 ->
  get response1 "items" (PyList []) = Ok (PyList (processed ++ bad :: rest)) ->
  valid_events env1 a1 processed rows1 ->
  build_meeting env1 a1 bad = Raise e ->
  calendar_answer env2 = Ok response2 ->
  get response2 "items" (PyList []) = Ok (PyList events) ->
  valid_events env2 a2 events rows2 ->
  let w1 := snd (sync_calendar_events env1 a1 w) in
  let w2 := snd (sync_calendar_events env2 a2 w1) in
  durable (store w1) = durable (store w)
  /\ durable (store w2)
     = meetings (store w)
       ++ stamp (next_id (store w)) (pending (store w) ++ rows1 ++ rows2).
Proof.
  intros H1 Hitems1 Hrows1 Hbad H2 Hitems2 Hrows2 w1 w2. subst w2 w1.
  rewrite (sync_run_aborts env1 a1 w _ _ _ _ _ _ _ H1 Hitems1 eq_refl Hrows1 Hbad).
  cbn [snd].
  rewrite (sync_run_valid env2 a2 _ _ _ _ _ H2 Hitems2 eq_refl Hrows2).
  cbn. by rewrite <- app_assoc.
Qed.

(** X9: The sync does not recognise an event it has stored before: two runs
    that both succeed on the same calendar answer store its rows twice,
    under different keys. *)
Theorem sync_twice_duplicates (env : Env) (account_id : Z) (w : World)
    (response : pyval) (events : list pyval) (rows : list Meeting.t) :
  calendar_answer env = Ok response ->
  get response "items" (PyList []) = Ok (PyList events) ->
  valid_events env account_id events rows ->
  pending (store w) = [] ->
  let w1 := snd (sync_calendar_events env account_id w) in
  let w2 := snd (sync_calendar_events env account_id w1) in
  durable (store w2)
  = meetings (store w)
    ++ stamp (next_id (store w)) rows
    ++ stamp (next_id (store w) + Z.of_nat (length rows)) rows.
Proof.
  intros Hanswer Hitems Hrows Hpending w1 w2. subst w2 w1.
  rewrite !(sync_run_valid env account_id _ _ _ _ _ Hanswer Hitems eq_refl Hrows).
  cbn. rewrite Hpending. cbn. by rewrite <- app_assoc.
Qed.

(** ** Properties of the UTC suffix replacement *)

Lemma append_cons (c : ascii) (a b : string) :
  String c a +:+ b = String c (a +:+ b).
Proof. reflexivity. Qed.

Lemma letters_append (a b : string) : letters (a +:+ b) = letters a ++ letters b.
Proof.
  induction a as [|c a IH]; [done|]. rewrite append_cons. cbn. by rewrite IH.
Qed.

Lemma replace_Z_append (a b : string) :
  replace_Z (a +:+ b) = replace_Z a +:+ replace_Z b.
Proof.
  induction a as [|c a IH]; [done|]. rewrite append_cons. cbn. rewrite IH.
  destruct (Ascii.eqb c "Z"%char); [|done].
  by rewrite !append_cons.
Qed.

(** X10: No ['Z'] is left in the text handed to [fromisoformat]: every one
    of them is replaced, not only a trailing one. *)
Theorem replace_Z_leaves_no_Z (s : string) : "Z"%char ∉ letters (replace_Z s).
Proof.
  induction s as [|c s IH]; cbn; [by apply not_elem_of_nil|].
  destruct (Ascii.eqb_spec c "Z"%char) as [->|Hc].
  - rewrite letters_append, not_elem_of_app. split; [|done]. cbn.
    rewrite !not_elem_of_cons. split_and!; try done. apply not_elem_of_nil.
  - cbn. rewrite not_elem_of_cons. split; [congruence|done].
Qed.

(** X11: A text without ['Z'] (an all-day date) is unchanged, and a
    timestamp that ends in ['Z'] and has no other ['Z'] gets the offset
    [+00:00] in its place. *)
Theorem replace_Z_utc_suffix (s : string) :
  "Z"%char ∉ letters s ->
  replace_Z s = s /\ replace_Z (s +:+ "Z") = s +:+ "+00:00".
Proof.
  intros Hs.
  assert (replace_Z s = s) as Hid.
  { induction s as [|c s IH]; cbn; [done|].
    cbn in Hs. rewrite not_elem_of_cons in Hs. destruct Hs as [Hc Hs].
    destruct (Ascii.eqb_spec c "Z"%char) as [->|_]; [done|]. by rewrite IH. }
  split; [done|]. by rewrite replace_Z_append, Hid.
Qed.

(** ** Further properties of the rows built from events *)

Section BuildMeeting.
Variable env : Env.
Variable account_id : Z.

Lemma mapM_result_Ok {A B} (f : A -> result B) (l : list A) (ys : list B) :
  mapM f l = Ok ys -> Forall2 (fun x y => f x = Ok y) l ys.
Proof.
  revert ys. induction l as [|x l IH]; intros ys; cbn.
  - intros [= <-]. constructor.
  - unfold mbind, result_bind, mret, result_ret.
    destruct (f x) as [y|e] eqn:Hx; [|done].
    destruct (mapM f l) as [k|e]; [|done].
    intros [= <-]. constructor; [done|by apply IH].
Qed.

(** X12: Which timestamp an event gives: [event[key]] has to be an object;
    the string under ["dateTime"] is used when that key is present, the
    one under ["date"] only when it is absent; the text has to be
    accepted by [fromisoformat] once every ['Z'] is replaced.  A
    ["dateTime"] that is present and not a string ([null], say) is not
    replaced by the date: the event is invalid. *)
Theorem event_time_Ok (kv : list (string * pyval)) (key : string) (t : datetime) :
  event_time env (PyDict kv) key = Ok t
  <-> exists bounds s,
        dict_lookup key kv = Some (PyDict bounds)
        /\ time_text bounds = Some s
        /\ fromisoformat env (replace_Z s) = Some t.
Proof.
  unfold event_time, time_text, mbind, result_bind. cbn. split.
  - destruct (dict_lookup key kv) as [[| | | | |bounds]|]; cbn; try done.
    intros H. exists bounds.
    destruct (dict_lookup "date" bounds) as [date|];
      destruct (dict_lookup "dateTime" bounds) as [[| | |s| |]|]; cbn in H;
      try done.
    all: try (destruct (fromisoformat env (replace_Z s)) eqn:Hparse; [|done];
              exists s; by simplify_eq).
    all: destruct date as [| | |s| |]; cbn in H; try done.
    all: destruct (fromisoformat env (replace_Z s)) eqn:Hparse; [|done].
    all: exists s; by simplify_eq.
  - intros (bounds & s & -> & Htext & Hparse). cbn.
    destruct (dict_lookup "date" bounds) as [date|];
      destruct (dict_lookup "dateTime" bounds) as [[| | |s'| |]|]; cbn;
      simplify_eq; try by rewrite Hparse.
    all: destruct date; simplify_eq; cbn; by rewrite Hparse.
Qed.

Lemma get_dict (kv : list (string * pyval)) (k : string) (d : pyval) :
  get (PyDict kv) k d = Ok (default d (dict_lookup k kv)).
Proof. unfold get. by destruct (dict_lookup k kv). Qed.

(** The steps of [build_meeting] on an object, one at a time. *)
Ltac build_steps H :=
  unfold build_meeting in H; rewrite !get_dict in H;
  unfold mbind, result_bind in H; cbn -[event_time default] in H.

(** X13: A row built from an event is a new row of this account on the
    primary calendar: it has no key yet, nothing of what the other
    methods add, and its attendee field is a string. *)
Theorem build_meeting_fresh_row (event : pyval) (m : Meeting.t) :
  build_meeting env account_id event = Ok m ->
  Meeting.id m = None
  /\ Meeting.account_id m = account_id
  /\ Meeting.calendar_id m = "primary"
  /\ is_str (Meeting.attendees m) = true
  /\ Meeting.transcript m = PyNone
  /\ Meeting.prep_summary m = PyNone
  /\ Meeting.action_items m = PyNone
  /\ Meeting.fathom_id m = PyNone.
Proof.
  intros H. unfold build_meeting, mbind, result_bind in H.
  cbn -[event_time] in H. repeat case_match; simplify_eq. by cbn.
Qed.

(** X14: What a valid event has to carry: it is an object with an ["id"], a
    ["summary"] and usable ["start"] and ["end"] entries; the
    description and the location are copied when present and [None]
    otherwise. *)
Theorem build_meeting_required_keys (event : pyval) (m : Meeting.t) :
  build_meeting env account_id event = Ok m ->
  exists kv,
    event = PyDict kv
    /\ dict_lookup "id" kv = Some (Meeting.event_id m)
    /\ dict_lookup "summary" kv = Some (Meeting.title m)
    /\ event_time env event "start" = Ok (Meeting.start_time m)
    /\ event_time env event "end" = Ok (Meeting.end_time m)
    /\ Meeting.description m = default PyNone (dict_lookup "description" kv)
    /\ Meeting.location m = default PyNone (dict_lookup "location" kv).
Proof.
  intros H. destruct event as [| | | | |kv]; try done. exists kv.
  build_steps H.
  destruct (dict_lookup "id" kv) as [event_id|]; [|done].
  destruct (dict_lookup "summary" kv) as [title|]; [|done].
  destruct (event_time env (PyDict kv) "start") as [t1|]; [|done].
  destruct (event_time env (PyDict kv) "end") as [t2|]; [|done].
  repeat case_match; simplify_eq; by cbn.
Qed.

(** X15: The attendee field of a valid event is [str] of the list of the
    ["email"] values of its attendees, in order; every attendee has to be
    an object with that key.  Without an ["attendees"] key it is [str]
    of the empty list. *)
Theorem build_meeting_attendees (kv : list (string * pyval)) (m : Meeting.t) :
  build_meeting env account_id (PyDict kv) = Ok m ->
  match dict_lookup "attendees" kv with
  | None => Meeting.attendees m = PyStr (py_str env (PyList []))
  | Some (PyList invited) =>
      exists addresses,
        Forall2 (fun a address =>
                   exists fields, a = PyDict fields
                                  /\ dict_lookup "email" fields = Some address)
                invited addresses
        /\ Meeting.attendees m = PyStr (py_str env (PyList addresses))
  | Some _ => True
  end.
Proof.
  intros H. build_steps H.
  destruct (dict_lookup "id" kv) as [event_id|]; [|done].
  destruct (dict_lookup "summary" kv) as [title|]; [|done].
  destruct (event_time env (PyDict kv) "start") as [t1|]; [|done].
  destruct (event_time env (PyDict kv) "end") as [t2|]; [|done].
  destruct (dict_lookup "attendees" kv) as [[| | | |invited|]|]; try done;
    cbn -[event_time] in H.
  - match type of H with
    | context [mapM ?f invited] =>
        destruct (mapM f invited) as [addresses|] eqn:Hmap; [|done]
    end.
    exists addresses. split.
    + apply mapM_result_Ok in Hmap.
      eapply Forall2_impl; [exact Hmap|]. intros a address Ha. cbn in Ha.
      destruct a as [| | | | |fields]; try done. exists fields. split; [done|].
      unfold getitem in Ha. by destruct (dict_lookup "email" fields); simplify_eq.
    + repeat case_match; simplify_eq; by cbn.
  - repeat case_match; simplify_eq; by cbn.
Qed.

(** X16: The meeting link of a valid event is the ["uri"] of the first entry
    point of its conference data, [None] when that entry point has no
    uri or when there is no conference data or no list of entry points.
    Conference data with an empty list of entry points, or with one
    whose first element is not an object, never belong to a valid
    event. *)
Theorem build_meeting_link (kv : list (string * pyval)) (m : Meeting.t) :
  build_meeting env account_id (PyDict kv) = Ok m ->
  match dict_lookup "conferenceData" kv with
  | None => Meeting.meeting_link m = PyNone
  | Some (PyDict conference) =>
      match dict_lookup "entryPoints" conference with
      | None => Meeting.meeting_link m = PyNone
      | Some (PyList (PyDict first :: _)) =>
          Meeting.meeting_link m = default PyNone (dict_lookup "uri" first)
      | Some _ => False
      end
  | Some _ => False
  end.
Proof.
  intros H. build_steps H.
  destruct (dict_lookup "id" kv) as [event_id|]; [|done].
  destruct (dict_lookup "summary" kv) as [title|]; [|done].
  destruct (event_time env (PyDict kv) "start") as [t1|]; [|done].
  destruct (event_time env (PyDict kv) "end") as [t2|]; [|done].
  destruct (iter _) as [seq|]; [|done].
  match type of H with
  | context [mapM ?f seq] => destruct (mapM f seq) as [addresses|]; [|done]
  end.
  destruct (dict_lookup "conferenceData" kv) as [[| | | | |conference]|];
    cbn -[event_time] in H; try done.
  - destruct (dict_lookup "entryPoints" conference) as [[| | |s|points|]|];
      cbn in H; try done.
    + by destruct s.
    + destruct points as [|[| | | | |first] ?]; cbn in H; try done.
      destruct (dict_lookup "uri" first); by simplify_eq.
    + by simplify_eq.
  - by simplify_eq.
Qed.

(** X17: Only ["id"], ["summary"], ["start"] and ["end"] are required: an
    event without attendees and without conference data is valid as soon
    as it has these four. *)
Theorem build_meeting_optional_keys (kv : list (string * pyval))
    (event_id title : pyval) (t1 t2 : datetime) :
  dict_lookup "id" kv = Some event_id ->
  dict_lookup "summary" kv = Some title ->
  event_time env (PyDict kv) "start" = Ok t1 ->
  event_time env (PyDict kv) "end" = Ok t2 ->
  dict_lookup "attendees" kv = None ->
  dict_lookup "conferenceData" kv = None ->
  build_meeting env account_id (PyDict kv)
  = Ok {| Meeting.id := None;
          Meeting.account_id := account_id;
          Meeting.calendar_id := "primary";
          Meeting.event_id := event_id;
          Meeting.title := title;
          Meeting.description := default PyNone (dict_lookup "description" kv);
          Meeting.start_time := t1;
          Meeting.end_time := t2;
          Meeting.attendees := PyStr (py_str env (PyList []));
          Meeting.location := default PyNone (dict_lookup "location" kv);
          Meeting.meeting_link := PyNone;
          Meeting.transcript := PyNone;
          Meeting.prep_summary := PyNone;
          Meeting.action_items := PyNone;
          Meeting.fathom_id := PyNone;
          Meeting.summary := PyNone |}.
Proof.
  intros Hid Htitle Hstart Hend Hnone Hconf.
  unfold build_meeting. rewrite !get_dict. unfold mbind, result_bind.
  cbn -[event_time default].
  rewrite Hid, Htitle, Hstart, Hend, Hnone, Hconf. by cbn.
Qed.

End BuildMeeting.

(** ** Further properties of the transcript import *)

Section ImportRuns.
Variable env : Env.
Variables (meeting_id : Z) (fathom_recording_id : string) (w : World).

(** X18: Without a provider credential ([None] or the empty string) the
    import does nothing but log a warning: no request is sent, the
    store is what it was, and the result is [None]. *)
Theorem import_fathom_transcript_not_configured :
  fathom_api_key env = None \/ fathom_api_key env = Some "" ->
  import_fathom_transcript env meeting_id fathom_recording_id w
  = (Ok PyNone,
     {| store := store w;
        trace := trace w ++ [LogWarning "Fathom API key not configured"] |}).
Proof.
  unfold import_fathom_transcript. intros [-> | ->]; by unfold_monad.
Qed.

Variable key : string.
Hypothesis configured : fathom_api_key env = Some key.
Hypothesis key_not_empty : key <> "".

Variable response : Response.
Hypothesis answered : provider_answer env fathom_recording_id key = Ok response.
Hypothesis status_ok : status_code response = 200.

(** X19: A 200 answer whose body cannot be used (it is not JSON, or not a
    JSON object) is an exception inside the [try]: the result is [None]
    and the store is what it was, although the status was a success. *)
Theorem import_fathom_transcript_unusable_body :
  match json response with
  | Ok (PyDict _) => False
  | _ => True
  end ->
  fst (import_fathom_transcript env meeting_id fathom_recording_id w) = Ok PyNone
  /\ store (snd (import_fathom_transcript env meeting_id fathom_recording_id w))
     = store w.
Proof.
  unfold import_fathom_transcript. unfold provider_answer in answered.
  rewrite configured. destruct key as [|c key']; [done|].
  unfold_monad. cbn. rewrite answered, status_ok. cbn.
  by destruct (json response) as [[| | | | |]|].
Qed.

Variable kv : list (string * pyval).
Hypothesis body : json response = Ok (PyDict kv).
Variables (i : nat) (meeting : Meeting.t).
Hypothesis found : find_meeting meeting_id (store w) = Some (i, meeting).

(** [data.get('transcript', '')]. *)
Let fetched : pyval := default (PyStr "") (dict_lookup "transcript" kv).

Lemma import_run_stores :
  import_fathom_transcript env meeting_id fathom_recording_id w
  = (Ok fetched,
     {| store := store_commit (store_write i (imported fathom_recording_id fetched meeting) (store w));
        trace := trace w ++ [HttpGet (transcript_url env fathom_recording_id);
                             DbQueryMeeting meeting_id; DbCommit] |}).
Proof.
  unfold import_fathom_transcript. unfold provider_answer in answered.
  rewrite configured. destruct key as [|c key']; [done|].
  unfold_monad. cbn. rewrite answered, status_ok, body. cbn.
  rewrite found. cbn. rewrite <- !app_assoc. cbn.
  unfold fetched. destruct (dict_lookup "transcript" kv); cbn.
  all: unfold store_commit, store_write, imported; cbn.
  all: by rewrite list_insert_insert_eq.
Qed.

Lemma found_in_range : (i < length (meetings (store w)))%nat.
Proof.
  unfold find_meeting in found. apply list_find_Some in found as (Hi & _ & _).
  by eapply lookup_lt_Some.
Qed.

(** X20: A successful import writes the transcript and the recording id to
    the row of the meeting and to no other row, commits, and returns the
    transcript; every other attribute of the row is kept. *)
Theorem import_fathom_transcript_stores :
  let out := import_fathom_transcript env meeting_id fathom_recording_id w in
  fst out = Ok fetched
  /\ meetings (store (snd out)) !! i = Some (imported fathom_recording_id fetched meeting)
  /\ Meeting.transcript (imported fathom_recording_id fetched meeting) = fetched
  /\ Meeting.fathom_id (imported fathom_recording_id fetched meeting) = PyStr fathom_recording_id
  /\ Meeting.set_transcript (Meeting.transcript meeting)
       (Meeting.set_fathom_id (Meeting.fathom_id meeting) (imported fathom_recording_id fetched meeting)) = meeting
  /\ (forall j, j <> i ->
        (j < length (meetings (store w)))%nat ->
        meetings (store (snd out)) !! j = meetings (store w) !! j)
  /\ durable (store (snd out)) = meetings (store (snd out))
  /\ trace (snd out)
     = trace w ++ [HttpGet (transcript_url env fathom_recording_id);
                   DbQueryMeeting meeting_id; DbCommit].
Proof.
  intros out. subst out. rewrite import_run_stores. cbn.
  split_and!; try done.
  - rewrite lookup_app_l by (rewrite length_insert; apply found_in_range).
    apply list_lookup_insert_eq, found_in_range.
  - by destruct meeting.
  - intros j Hj Hlen. rewrite lookup_app_l by by rewrite length_insert.
    by apply list_lookup_insert_ne.
Qed.

(** X21: A 200 answer without a ["transcript"] key erases the transcript the
    meeting had: the default of [data.get] is the empty string, and it is
    stored like a transcript. *)
Theorem import_fathom_transcript_erases :
  dict_lookup "transcript" kv = None ->
  let out := import_fathom_transcript env meeting_id fathom_recording_id w in
  fst out = Ok (PyStr "")
  /\ exists row,
      meetings (store (snd out)) !! i = Some row
      /\ Meeting.transcript row = PyStr ""
      /\ truthy (Meeting.transcript row) = false.
Proof.
  intros Hnone out. subst out. rewrite import_run_stores.
  assert (fetched = PyStr "") as Hfetched by (unfold fetched; by rewrite Hnone).
  rewrite Hfetched. cbn. split; [done|].
  exists (imported fathom_recording_id (PyStr "") meeting). split_and!.
  - rewrite lookup_app_l by (rewrite length_insert; apply found_in_range).
    apply list_lookup_insert_eq, found_in_range.
  - done.
  - done.
Qed.

End ImportRuns.

(** ** Further properties of the action-item extraction *)

Section ExtractRuns.
Variable env : Env.
Variables (meeting_id : Z) (w : World) (i : nat) (meeting : Meeting.t).
Hypothesis found : find_meeting meeting_id (store w) = Some (i, meeting).
Hypothesis has_transcript : truthy (Meeting.transcript meeting) = true.

(** X22: With a transcript, the extraction calls the language-model client
    once, on the stored transcript, writes [str] of the answer to the
    action-item field of that row and of no other, commits, and returns
    the answer itself (the list, not the string). *)
Theorem extract_action_items_stores (items : pyval) :
  extract_action_items env (Meeting.transcript meeting) = Ok items ->
  let out := extract_action_items_from_meeting env meeting_id w in
  let row := Meeting.set_action_items (PyStr (py_str env items)) meeting in
  fst out = Ok items
  /\ trace (snd out)
     = trace w ++ [DbQueryMeeting meeting_id;
                   LlmExtract (Meeting.transcript meeting); DbCommit]
  /\ store (snd out) = store_commit (store_write i row (store w))
  /\ meetings (store (snd out)) !! i = Some row
  /\ (forall j, j <> i ->
        (j < length (meetings (store w)))%nat ->
        meetings (store (snd out)) !! j = meetings (store w) !! j)
  /\ durable (store (snd out)) = meetings (store (snd out)).
Proof.
  intros Hitems out row. subst out.
  assert (extract_action_items_from_meeting env meeting_id w
          = (Ok items,
             {| store := store_commit (store_write i row (store w));
                trace := trace w ++ [DbQueryMeeting meeting_id;
                                     LlmExtract (Meeting.transcript meeting);
                                     DbCommit] |})) as ->.
  { unfold extract_action_items_from_meeting. unfold_monad. cbn.
    rewrite found. cbn. rewrite has_transcript. cbn. rewrite Hitems. cbn.
    by rewrite <- !app_assoc. }
  cbn. split_and!; try done.
  - rewrite lookup_app_l
      by (rewrite length_insert; eapply found_in_range; exact found).
    eapply list_lookup_insert_eq, found_in_range. exact found.
  - intros j Hj Hlen. rewrite lookup_app_l by by rewrite length_insert.
    by apply list_lookup_insert_ne.
Qed.

End ExtractRuns.

(** ** Further properties of the prep generation *)

Section PrepRuns.
Variable env : Env.
Variables (meeting_id : Z) (w : World) (i : nat) (meeting : Meeting.t).
Hypothesis found : find_meeting meeting_id (store w) = Some (i, meeting).

Lemma query_emails_nobody (st : Store) : query_emails [] st = [].
Proof.
  unfold query_emails.
  assert (filter (fun e => sender_in [] e = true) (emails st) = []) as ->; [|done].
  induction (emails st) as [|e l IH]; [done|].
  rewrite filter_cons. by destruct (decide (sender_in [] e = true)).
Qed.

(** X23: A meeting whose attendee field is not a string (a NULL column, say)
    is treated as a meeting without attendees: no e-mail is selected,
    whatever the inbox holds, and the summarization is still called, on
    the empty list; its answer is returned and stored: the row of the
    meeting has it as its [prep_summary], in the session and in the
    committed rows. *)
Theorem generate_meeting_prep_without_attendees (summary : pyval) :
  is_str (Meeting.attendees meeting) = false ->
  summarize_thread env [] = Ok summary ->
  let out := generate_meeting_prep env meeting_id w in
  out
  = (Ok summary,
     {| store := store_commit
                   (store_write i (Meeting.set_prep_summary summary meeting) (store w));
        trace := trace w ++ [DbQueryMeeting meeting_id; DbQueryEmail [];
                             LlmSummarize []; DbCommit] |})
  /\ exists row,
      meetings (store (snd out)) !! i = Some row
      /\ durable (store (snd out)) !! i = Some row
      /\ Meeting.prep_summary row = summary
      /\ Meeting.id row = Meeting.id meeting
      /\ Meeting.attendees row = Meeting.attendees meeting
      /\ Meeting.transcript row = Meeting.transcript meeting.
Proof.
  intros Hstr Hsum out.
  assert (out
          = (Ok summary,
             {| store := store_commit
                           (store_write i (Meeting.set_prep_summary summary meeting)
                              (store w));
                trace := trace w ++ [DbQueryMeeting meeting_id; DbQueryEmail [];
                                     LlmSummarize []; DbCommit] |})) as Hout.
  { subst out. unfold generate_meeting_prep. unfold_monad. cbn.
    rewrite found. cbn.
    destruct (Meeting.attendees meeting); try done; cbn.
    all: rewrite query_emails_nobody; cbn; rewrite Hsum; cbn.
    all: by rewrite <- !app_assoc. }
  split; [done|]. rewrite Hout. cbn.
  exists (Meeting.set_prep_summary summary meeting).
  assert ((<[i:=Meeting.set_prep_summary summary meeting]> (meetings (store w))
           ++ stamp (next_id (store w)) (pending (store w))) !! i
          = Some (Meeting.set_prep_summary summary meeting)) as Hrow.
  { rewrite lookup_app_l
      by (rewrite length_insert; eapply found_in_range; exact found).
    eapply list_lookup_insert_eq, found_in_range. exact found. }
  by split_and!.
Qed.

(** X24: When the attendee field is a string that [eval] rejects, the
    exception is caught: the result is the empty string, the store is
    what it was, and neither the e-mail query nor the summarization
    took place. *)
Theorem generate_meeting_prep_eval_fails (src : string) (e : exn) :
  Meeting.attendees meeting = PyStr src ->
  py_eval env src = Raise e ->
  generate_meeting_prep env meeting_id w
  = (Ok (PyStr ""),
     {| store := store w;
        trace := trace w ++ [DbQueryMeeting meeting_id;
                             LogError "Error generating meeting prep: " e] |}).
Proof.
  intros Hstr Heval. unfold generate_meeting_prep. unfold_monad. cbn.
  rewrite found. cbn. rewrite Hstr, Heval. cbn. by rewrite <- !app_assoc.
Qed.

(** X25: When the summarization raises, the result is the empty string and
    the store is what it was: the prep summary the meeting had is
    kept. *)
Theorem generate_meeting_prep_summary_fails (src : string) (attendees : list pyval)
    (e : exn) :
  Meeting.attendees meeting = PyStr src ->
  py_eval env src = Ok (PyList attendees) ->
  summarize_thread env (map (email_entry env) (query_emails attendees (store w)))
  = Raise e ->
  fst (generate_meeting_prep env meeting_id w) = Ok (PyStr "")
  /\ store (snd (generate_meeting_prep env meeting_id w)) = store w.
Proof.
  intros Hstr Heval Hsum. unfold generate_meeting_prep. unfold_monad. cbn.
  rewrite found. cbn. rewrite Hstr, Heval. cbn. by rewrite Hsum.
Qed.

End PrepRuns.

(** ** Further properties of the e-mail selection *)

Section Selection.
Variable env : Env.

(** Every selected e-mail is an e-mail of the inbox whose sender is in
    the attendee list. *)
Theorem query_emails_only_matching (attendees : list pyval) (st : Store)
    (e : Email.t) :
  e ∈ query_emails attendees st ->
  e ∈ emails st /\ sender_in attendees e = true.
Proof.
  unfold query_emails. intros He.
  apply subseteq_take in He. rewrite merge_sort_Permutation in He.
  by apply list_elem_of_filter in He as [? ?].
Qed.

(** X26: When at most ten e-mails match, all of them are selected. *)
Theorem query_emails_all_when_few (attendees : list pyval) (st : Store) :
  (length (filter (fun e => sender_in attendees e = true) (emails st)) <= 10)%nat ->
  query_emails attendees st
  ≡ₚ filter (fun e => sender_in attendees e = true) (emails st).
Proof.
  intros Hfew. unfold query_emails.
  rewrite take_ge; [apply merge_sort_Permutation|].
  by rewrite merge_sort_Permutation.
Qed.

Lemma substring_all (n : nat) (s : string) :
  (String.length s <= n)%nat -> String.substring 0 n s = s.
Proof.
  revert s. induction n as [|n IH]; intros [|c s]; cbn; try done; [lia|].
  intros Hlen. rewrite IH; [done|lia].
Qed.

(** X27: A body of at most 500 characters is sent to the summarization
    unchanged. *)
Theorem email_entry_short_body (e : Email.t) :
  (String.length (Email.body e) <= 500)%nat ->
  ed_body (email_entry env e) = Email.body e.
Proof. intros Hlen. unfold email_entry. cbn. by apply substring_all. Qed.

End Selection.

(** ** Further properties of the follow-up composition and of the
       failure policy *)

Section ReadOnly.
Variable env : Env.

(** X28: The follow-up composition never writes: whatever the backend does,
    the store after it is the store before it. *)
Theorem generate_followup_email_read_only (meeting_id : Z) (w : World) :
  store (snd (generate_followup_email env meeting_id w)) = store w.
Proof.
  unfold generate_followup_email. unfold_monad. cbn.
  repeat case_match; simplify_eq; done.
Qed.

(** X29: A 200 answer without a ["choices"] key, or with an empty list of
    choices, is an exception inside the [try]: for an existing meeting
    the result is the text "Unable to generate follow-up email". *)
Theorem generate_followup_email_no_choices (meeting_id : Z) (w : World) (i : nat)
    (meeting : Meeting.t) (response : Response) (kv : list (string * pyval)) :
  find_meeting meeting_id (store w) = Some (i, meeting) ->
  backend_answer env meeting = Ok response ->
  status_code response = 200 ->
  json response = Ok (PyDict kv) ->
  dict_lookup "choices" kv = None \/ dict_lookup "choices" kv = Some (PyList []) ->
  fst (generate_followup_email env meeting_id w)
  = Ok (PyStr "Unable to generate follow-up email").
Proof.
  unfold backend_answer, generate_followup_email.
  intros Hfound. unfold_monad. cbn. rewrite Hfound. cbn.
  intros Hanswer Hstatus Hjson Hchoices. rewrite Hanswer, Hstatus, Hjson. cbn.
  by destruct Hchoices as [-> | ->].
Qed.


End ReadOnly.

(** ** The further properties on the sample data *)

Lemma sync_calendar_events_request_fails_witness :
  sync_calendar_events Cases.calendar_down 7 Sample.world
  = (Ok {| synced := 0; errors := 1 |},
     {| store := store Sample.world;
        trace := [CalendarList "primary" "2024-05-01T00:00:00Z" "2024-05-01T00:00:00Z";
                  LogError "Error syncing calendar: " (ServiceError "503")] |}).
Proof.
  apply (sync_calendar_events_request_fails Cases.calendar_down 7 Sample.world
           (ServiceError "503")).
  reflexivity.
Defined.

Lemma sync_calendar_events_no_items_witness :
  fst (sync_calendar_events Cases.calendar_empty 7 Sample.world)
  = Ok {| synced := 0; errors := 0 |}.
Proof.
  rewrite (sync_calendar_events_no_items Cases.calendar_empty 7 Sample.world
             [("kind", PyStr "calendar#events")]); reflexivity.
Defined.

Lemma sync_calendar_events_unusable_answer_witness :
  fst (sync_calendar_events Cases.calendar_null 7 Sample.world)
  = Ok {| synced := 0; errors := 1 |}.
Proof.
  destruct (sync_calendar_events_unusable_answer Cases.calendar_null 7 Sample.world
              PyNone eq_refl I) as (e & Hrun & _).
  rewrite Hrun. reflexivity.
Defined.

Lemma aborted_rows_committed_by_next_sync_witness :
  length (durable (store Cases.after_abort)) = 2%nat
  /\ length (durable (store (snd (sync_calendar_events Sample.env_up 7 Cases.after_abort))))
     = 5%nat.
Proof.
  destruct (aborted_rows_committed_by_next_sync
              Sample.calendar_with_untitled Sample.env_up 7 7 Sample.world
              (PyDict [("items", PyList [Sample.event_ok; Sample.event_untitled;
                                         Sample.event_all_day])])
              (PyDict [("items", PyList [Sample.event_ok; Sample.event_all_day])])
              [Sample.event_ok] [Sample.event_all_day]
              [Sample.event_ok; Sample.event_all_day] Sample.event_untitled
              (Sample.row_of Sample.event_ok)
              (Sample.row_of Sample.event_ok ++ Sample.row_of Sample.event_all_day)
              (KeyError "summary"))
    as (H1 & H2).
  - reflexivity.
  - reflexivity.
  - repeat constructor.
  - reflexivity.
  - reflexivity.
  - reflexivity.
  - repeat constructor.
  - unfold Cases.after_abort. rewrite H1, H2. split; reflexivity.
Defined.

Lemma sync_twice_duplicates_witness :
  length (durable (store (snd (sync_calendar_events Sample.env_up 7
                                 (snd (sync_calendar_events Sample.env_up 7
                                         Sample.world))))))
  = 6%nat.
Proof.
  rewrite (sync_twice_duplicates Sample.env_up 7 Sample.world
             (PyDict [("items", PyList [Sample.event_ok; Sample.event_all_day])])
             [Sample.event_ok; Sample.event_all_day]
             (Sample.row_of Sample.event_ok ++ Sample.row_of Sample.event_all_day)).
  - reflexivity.
  - reflexivity.
  - reflexivity.
  - repeat constructor.
  - reflexivity.
Defined.

Lemma sync_calendar_events_any_invalid_event_witness :
  exists r,
    fst (sync_calendar_events Sample.calendar_with_untitled 7 Sample.world) = Ok r
    /\ errors r = 1.
Proof.
  destruct (sync_calendar_events_any_invalid_event Sample.calendar_with_untitled 7
              Sample.world
              (PyDict [("items", PyList [Sample.event_ok; Sample.event_untitled;
                                         Sample.event_all_day])])
              [Sample.event_ok; Sample.event_untitled; Sample.event_all_day]
              Sample.event_untitled (KeyError "summary"))
    as (r & t & Hr & Herrors & _).
  - reflexivity.
  - reflexivity.
  - apply list_elem_of_lookup. by exists 1%nat.
  - reflexivity.
  - exists r. split; [exact Hr|exact Herrors].
Defined.

Lemma replace_Z_utc_suffix_witness :
  replace_Z "2024-05-02" = "2024-05-02"
  /\ replace_Z ("2024-05-01T09:00:00" +:+ "Z") = "2024-05-01T09:00:00" +:+ "+00:00".
Proof.
  split.
  - apply (replace_Z_utc_suffix "2024-05-02"). compute_done.
  - apply (replace_Z_utc_suffix "2024-05-01T09:00:00"). compute_done.
Defined.

Lemma build_meeting_fresh_row_witness :
  Meeting.id (Cases.built Sample.event_ok) = None
  /\ Meeting.calendar_id (Cases.built Sample.event_ok) = "primary".
Proof.
  destruct (build_meeting_fresh_row Sample.env_up 7 Sample.event_ok
              (Cases.built Sample.event_ok) eq_refl) as (Hid & _ & Hcal & _).
  split; [exact Hid|exact Hcal].
Defined.

Lemma build_meeting_required_keys_witness :
  exists kv,
    Sample.event_all_day = PyDict kv
    /\ dict_lookup "summary" kv = Some (PyStr "Offsite").
Proof.
  destruct (build_meeting_required_keys Sample.env_up 7 Sample.event_all_day
              (Cases.built Sample.event_all_day) eq_refl)
    as (kv & Hkv & _ & Htitle & _).
  exists kv. split; [exact Hkv|exact Htitle].
Defined.

Lemma build_meeting_attendees_witness :
  exists addresses,
    Meeting.attendees (Cases.built Sample.event_ok)
    = PyStr (Sample.show (PyList addresses)).
Proof.
  destruct (build_meeting_attendees Sample.env_up 7
              [("id", PyStr "ev1"); ("summary", PyStr "Kickoff");
               ("start", PyDict [("dateTime", PyStr "2024-05-01T09:00:00Z")]);
               ("end", PyDict [("dateTime", PyStr "2024-05-01T10:00:00Z")]);
               ("attendees", PyList [PyDict [("email", PyStr "ann@example.org")]])]
              (Cases.built Sample.event_ok) eq_refl)
    as (addresses & _ & Hattendees).
  exists addresses. exact Hattendees.
Defined.

Lemma build_meeting_link_witness :
  Meeting.meeting_link (Cases.built Cases.event_call) = PyStr "https://meet.test/abc".
Proof.
  exact (build_meeting_link Sample.env_up 7
           [("id", PyStr "ev4"); ("summary", PyStr "Standup");
            ("start", PyDict [("dateTime", PyStr "2024-05-01T09:00:00Z");
                              ("date", PyStr "2024-05-02")]);
            ("end", PyDict [("dateTime", PyStr "2024-05-01T10:00:00Z")]);
            ("conferenceData",
             PyDict [("entryPoints",
                      PyList [PyDict [("uri", PyStr "https://meet.test/abc")];
                              PyDict [("uri", PyStr "tel:+1-555-0100")]])])]
           (Cases.built Cases.event_call) eq_refl).
Defined.

Lemma build_meeting_optional_keys_witness :
  build_meeting Sample.env_up 7 Sample.event_all_day
  = Ok (Cases.built Sample.event_all_day).
Proof.
  unfold Sample.event_all_day.
  rewrite (build_meeting_optional_keys Sample.env_up 7
             [("id", PyStr "ev2"); ("summary", PyStr "Offsite");
              ("start", PyDict [("date", PyStr "2024-05-02")]);
              ("end", PyDict [("date", PyStr "2024-05-02")]);
              ("location", PyStr "Lisbon")]
             (PyStr "ev2") (PyStr "Offsite") 3 3); reflexivity.
Defined.

Lemma import_fathom_transcript_not_configured_witness :
  import_fathom_transcript (Cases.with_key (Some "") Sample.env_up) 1 "rec-1"
    Sample.world
  = (Ok PyNone,
     {| store := store Sample.world;
        trace := [LogWarning "Fathom API key not configured"] |}).
Proof.
  apply (import_fathom_transcript_not_configured
           (Cases.with_key (Some "") Sample.env_up) 1 "rec-1" Sample.world).
  right. reflexivity.
Defined.

Lemma import_fathom_transcript_unusable_body_witness :
  fst (import_fathom_transcript Cases.provider_garbled 1 "rec-1" Sample.world)
  = Ok PyNone
  /\ store (snd (import_fathom_transcript Cases.provider_garbled 1 "rec-1"
                   Sample.world))
     = store Sample.world.
Proof.
  apply (import_fathom_transcript_unusable_body Cases.provider_garbled 1 "rec-1"
           Sample.world "k" eq_refl ltac:(discriminate)
           {| status_code := 200; json := Raise ValueError; text := "<html>" |}
           eq_refl eq_refl).
  exact I.
Defined.

Lemma import_fathom_transcript_stores_witness :
  fst (import_fathom_transcript Sample.env_up 2 "rec-1" Sample.world)
  = Ok (PyStr "hello")
  /\ meetings (store (snd (import_fathom_transcript Sample.env_up 2 "rec-1"
                             Sample.world))) !! 1%nat
     = Some (imported "rec-1" (PyStr "hello") Sample.upcoming).
Proof.
  destruct (import_fathom_transcript_stores Sample.env_up 2 "rec-1" Sample.world "k"
              eq_refl ltac:(discriminate)
              {| status_code := 200;
                 json := Ok (PyDict [("transcript", PyStr "hello")]);
                 text := "" |}
              eq_refl eq_refl [("transcript", PyStr "hello")] eq_refl
              1%nat Sample.upcoming eq_refl) as (Hret & Hrow & _).
  split; [exact Hret|exact Hrow].
Defined.

Lemma import_fathom_transcript_erases_witness :
  Meeting.transcript Sample.held = PyStr "Ann: I will send the notes."
  /\ exists row,
      meetings (store (snd (import_fathom_transcript
                              Cases.provider_without_transcript 1 "rec-1"
                              Sample.world))) !! 0%nat = Some row
      /\ Meeting.transcript row = PyStr "".
Proof.
  split; [reflexivity|].
  destruct (import_fathom_transcript_erases Cases.provider_without_transcript 1
              "rec-1" Sample.world "k" eq_refl ltac:(discriminate)
              {| status_code := 200;
                 json := Ok (PyDict [("status", PyStr "processing")]);
                 text := "" |}
              eq_refl eq_refl [("status", PyStr "processing")] eq_refl
              0%nat Sample.held eq_refl eq_refl) as (_ & row & Hrow & Hempty & _).
  exists row. split; [exact Hrow|exact Hempty].
Defined.

Lemma extract_action_items_stores_witness :
  fst (extract_action_items_from_meeting Sample.env_up 1 Sample.world)
  = Ok (PyList [PyStr "send notes"])
  /\ (Meeting.action_items <$>
        meetings (store (snd (extract_action_items_from_meeting Sample.env_up 1
                                Sample.world))) !! 0%nat)
     = Some (PyStr "['send notes']").
Proof.
  destruct (extract_action_items_stores Sample.env_up 1 Sample.world 0 Sample.held
              eq_refl eq_refl (PyList [PyStr "send notes"]) eq_refl)
    as (Hret & _ & _ & Hrow & _).
  split; [exact Hret|]. rewrite Hrow. reflexivity.
Defined.

Lemma generate_meeting_prep_without_attendees_witness :
  fst (generate_meeting_prep Sample.env_up 4 Cases.world4) = Ok (PyStr "brief")
  /\ Meeting.prep_summary Cases.unattended = PyNone
  /\ (Meeting.prep_summary <$>
        meetings (store (snd (generate_meeting_prep Sample.env_up 4 Cases.world4)))
          !! 3%nat)
     = Some (PyStr "brief")
  /\ (Meeting.prep_summary <$>
        durable (store (snd (generate_meeting_prep Sample.env_up 4 Cases.world4)))
          !! 3%nat)
     = Some (PyStr "brief").
Proof.
  destruct (generate_meeting_prep_without_attendees Sample.env_up 4 Cases.world4
              3 Cases.unattended eq_refl (PyStr "brief") eq_refl eq_refl)
    as (Hout & row & Hsession & Hdurable & Hsummary & _).
  split_and!; [by rewrite Hout|reflexivity| |].
  - rewrite Hsession. cbn. rewrite Hsummary. reflexivity.
  - rewrite Hdurable. cbn. rewrite Hsummary. reflexivity.
Defined.

Lemma generate_meeting_prep_eval_fails_witness :
  generate_meeting_prep Sample.env_up 3 Cases.world4
  = (Ok (PyStr ""),
     {| store := store Cases.world4;
        trace := [DbQueryMeeting 3;
                  LogError "Error generating meeting prep: " ValueError] |}).
Proof.
  apply (generate_meeting_prep_eval_fails Sample.env_up 3 Cases.world4 2
           Cases.garbled eq_refl "ann@example.org, bob@example.org" ValueError);
    reflexivity.
Defined.

Lemma generate_meeting_prep_summary_fails_witness :
  fst (generate_meeting_prep
         (Cases.with_summarize (Raise (ServiceError "quota")) Sample.env_up)
         1 Sample.world) = Ok (PyStr "")
  /\ store (snd (generate_meeting_prep
                   (Cases.with_summarize (Raise (ServiceError "quota")) Sample.env_up)
                   1 Sample.world)) = store Sample.world.
Proof.
  apply (generate_meeting_prep_summary_fails
           (Cases.with_summarize (Raise (ServiceError "quota")) Sample.env_up)
           1 Sample.world 0 Sample.held eq_refl
           "['ann@example.org']" [PyStr "ann@example.org"] (ServiceError "quota"));
    reflexivity.
Defined.

Lemma query_emails_all_when_few_witness :
  query_emails [PyStr "ann@example.org"] Sample.db
  ≡ₚ [Sample.mail "ann@example.org" 5; Sample.mail "ann@example.org" 8].
Proof.
  apply (query_emails_all_when_few [PyStr "ann@example.org"] Sample.db).
  vm_compute. lia.
Defined.

Lemma email_entry_short_body_witness :
  ed_body (email_entry Sample.env_up (Sample.mail "ann@example.org" 5)) = "text".
Proof.
  apply (email_entry_short_body Sample.env_up (Sample.mail "ann@example.org" 5)).
  vm_compute. lia.
Defined.

Lemma generate_followup_email_no_choices_witness :
  fst (generate_followup_email Cases.backend_silent 1 Sample.world)
  = Ok (PyStr "Unable to generate follow-up email").
Proof.
  apply (generate_followup_email_no_choices Cases.backend_silent 1 Sample.world 0
           Sample.held
           {| status_code := 200; json := Ok (PyDict [("choices", PyList [])]);
              text := "" |}
           [("choices", PyList [])]); try reflexivity.
  right. reflexivity.
Defined.
